(** * tag-genie: the audit / clean decision pipeline of [main.py]

    A shallow embedding of the three commands of [main.py] ([process],
    [audit], [clean]) and the properties the specification states about
    them.

    Conventions of the embedding.
    - A Python [str] is a [string]; each [ascii] stands for the code point of
      the same number, so the model covers the strings whose code points are
      below 256.
    - A Python [float] is a primitive binary64 [float]; Python and the kernel
      share IEEE 754 comparison (every comparison with NaN is false).
    - A CSV row is the [dict] that [csv.DictReader] yields: a finite map from
      column names to values.  A cell that a short line leaves out is [None].
      Cells beyond the header (which [DictReader] stores under the key [None])
      are outside the model, as is the text layout of the CSV files.
    - Code that can raise returns a [result]; the loops thread their counters
      and the output file explicitly. *)

From Stdlib Require Import ZArith String Ascii List Bool Lia Floats.
From stdpp Require Import base option list gmap strings.

Set Warnings "-inexact-float".

Import ListNotations.
Local Open Scope string_scope.
Local Open Scope Z_scope.

(** ** Python values, exceptions and results *)

Inductive value : Type :=
| VNone
| VStr (s : string)
| VFloat (f : float).

Inductive exn : Type :=
| AttributeError
| TypeError
| ValueError
| KeyError
| IndexError
| ZeroDivisionError
| ClassifierError (msg : string)
| Exit.

Inductive result (A : Type) : Type :=
| Ok (a : A)
| Raise (e : exn).

Arguments Ok {A} a.
Arguments Raise {A} e.

Definition bind {A B : Type} (m : result A) (k : A -> result B) : result B :=
  match m with
  | Ok a => k a
  | Raise e => Raise e
  end.

Notation "'do' x <- m ; k" := (bind m (fun x => k))
  (at level 10, x name, m at level 100, k at level 200).

Abbreviation row := (gmap string value).

(** [row.get(key, default)] *)
Definition row_get (r : row) (key : string) (dflt : value) : value :=
  match r !! key with
  | Some v => v
  | None => dflt
  end.

(** ** [str.strip] *)

(** [str.isspace] on the code points below 256. *)
Definition is_space (a : ascii) : bool :=
  let n := N_of_ascii a in
  (((9 <=? n) && (n <=? 13)) || ((28 <=? n) && (n <=? 32))
   || (n =? 133) || (n =? 160))%N.

Fixpoint lstrip (s : string) : string :=
  match s with
  | EmptyString => EmptyString
  | String a s' => if is_space a then lstrip s' else s
  end.

Fixpoint rstrip (s : string) : string :=
  match s with
  | EmptyString => EmptyString
  | String a s' =>
      match rstrip s' with
      | EmptyString => if is_space a then EmptyString else String a EmptyString
      | t => String a t
      end
  end.

Definition strip (s : string) : string := rstrip (lstrip s).

(** [v.strip()] for a value found in a row: only a [str] has the method. *)
Definition py_strip (v : value) : result string :=
  match v with
  | VStr s => Ok (strip s)
  | VNone | VFloat _ => Raise AttributeError
  end.

(** ** The built-in [float()] *)

Module PyFloat.

(** The white space [float()] skips at both ends: the ASCII white space of
    C, and the white space above U+007F, which the conversion first turns
    into a blank. *)
Definition is_float_space (a : ascii) : bool :=
  let n := N_of_ascii a in
  (((9 <=? n) && (n <=? 13)) || (n =? 32) || (n =? 133) || (n =? 160))%N.

Fixpoint lskip (s : string) : string :=
  match s with
  | EmptyString => EmptyString
  | String a s' => if is_float_space a then lskip s' else s
  end.

Fixpoint rskip (s : string) : string :=
  match s with
  | EmptyString => EmptyString
  | String a s' =>
      match rskip s' with
      | EmptyString =>
          if is_float_space a then EmptyString else String a EmptyString
      | t => String a t
      end
  end.

Definition is_digit (a : ascii) : bool :=
  let n := N_of_ascii a in ((48 <=? n) && (n <=? 57))%N.

Definition digit_val (a : ascii) : Z := Z.of_N (N_of_ascii a) - 48.

(** Underscores may only stand between two digits; they are removed.
    [prev] tells whether the previous character was a digit, [und] whether
    it was an underscore. *)
Fixpoint drop_underscores (prev und : bool) (s : string) : option string :=
  match s with
  | EmptyString => if und then None else Some EmptyString
  | String a s' =>
      if Ascii.eqb a "_" then
        if prev then drop_underscores false true s' else None
      else if und && negb (is_digit a) then None
      else option_map (String a) (drop_underscores (is_digit a) false s')
  end.

Definition lower (a : ascii) : ascii :=
  let n := N_of_ascii a in
  if ((65 <=? n) && (n <=? 90))%N then ascii_of_N (n + 32) else a.

Fixpoint lowercase (s : string) : string :=
  match s with
  | EmptyString => EmptyString
  | String a s' => String (lower a) (lowercase s')
  end.

(** Reads a run of digits: the number read so far, how many digits were
    read, and the rest of the text. *)
Fixpoint digits (acc : Z) (n : Z) (s : string) : Z * Z * string :=
  match s with
  | String a s' =>
      if is_digit a then digits (10 * acc + digit_val a) (n + 1) s'
      else (acc, n, s)
  | EmptyString => (acc, n, s)
  end.

Definition sign (s : string) : bool * string :=
  match s with
  | String "-" s' => (true, s')
  | String "+" s' => (false, s')
  | _ => (false, s)
  end.

(** The decimal [(-1)^neg * m * 10^e], rounded to the nearest binary64
    number, ties to even. *)
Definition of_decimal (neg : bool) (m e : Z) : spec_float :=
  match m with
  | Z0 => S754_zero neg
  | Zpos p =>
      if 0 <=? e then binary_normalize prec emax (cond_Zopp neg (Zpos p * 10 ^ e)) 0 neg
      else
        let '(q, e', l) := SFdiv_core_binary prec emax (Zpos p) 0 (10 ^ (- e)) 0 in
        binary_round_aux prec emax neg q e' l
  | Zneg _ => S754_nan
  end.

(** [digits [. digits] [(e|E) [sign] digits]], with a digit in the
    mantissa and, after an exponent mark, a digit in the exponent. *)
Definition decimal (neg : bool) (s : string) : option spec_float :=
  let '(m1, n1, s1) := digits 0 0 s in
  let '(m, n2, s2) :=
    match s1 with
    | String "." s1' => digits m1 0 s1'
    | _ => (m1, 0, s1)
    end in
  if n1 + n2 =? 0 then None
  else
    match s2 with
    | EmptyString => Some (of_decimal neg m (- n2))
    | String c s3 =>
        if Ascii.eqb c "e" || Ascii.eqb c "E" then
          let '(eneg, s4) := sign s3 in
          match digits 0 0 s4 with
          | (x, nx, EmptyString) =>
              if nx =? 0 then None
              else Some (of_decimal neg m (cond_Zopp eneg x - n2))
          | _ => None
          end
        else None
    end.

Definition parse (s : string) : option spec_float :=
  match drop_underscores false false (rskip (lskip s)) with
  | None => None
  | Some t =>
      let '(neg, u) := sign t in
      let w := lowercase u in
      if String.eqb w "inf" || String.eqb w "infinity" then Some (S754_infinity neg)
      else if String.eqb w "nan" then Some S754_nan
      else decimal neg u
  end.

End PyFloat.

(** [float(v)]: a float is returned as it is, a string is parsed
    ([ValueError] when it is no number), [None] is a [TypeError]. *)
Definition py_float (v : value) : result float :=
  match v with
  | VFloat f => Ok f
  | VStr s =>
      match PyFloat.parse s with
      | Some x => Ok (SF2Prim x)
      | None => Raise ValueError
      end
  | VNone => Raise TypeError
  end.


(** Python's [int / int] and [float * float] on the counters of a report:
    the counters stay far below 2^53, where the true division of two integers
    is the division of the floats they convert to. *)
Definition float_of_Z (z : Z) : float :=
  SF2Prim (binary_normalize prec emax z 0 false).

Definition truediv (a b : Z) : result float :=
  if b =? 0 then Raise ZeroDivisionError
  else Ok (float_of_Z a / float_of_Z b)%float.

(** [try: body except (ValueError, TypeError): handler] *)
Definition value_or_type_error (e : exn) : bool :=
  match e with
  | ValueError | TypeError => true
  | _ => false
  end.

Definition try_except {A : Type} (body : result A) (caught : exn -> bool)
    (handler : result A) : result A :=
  match body with
  | Ok a => Ok a
  | Raise e => if caught e then handler else Raise e
  end.

(** ** Shared constants and mappings *)

Definition NONE_TAG : string := "None of the above".

Definition TAG_MAP : gmap string string :=
  list_to_map
    [ ("Legal Services and Immigration Consultants", "Legal & Immigration");
      ("Chartered Accountants and Tax Consultants", "Finance & Tax");
      ("Relocation Services and Lifestyle Management", "Relocation & Lifestyle");
      ("Real Estate Agency and Property Rentals", "Real Estate");
      ("None of the above", "None") ].

Definition SHORT_TAG_MAP : gmap string string :=
  list_to_map
    [ ("Legal Services and Immigration Consultants", "Legal");
      ("Chartered Accountants and Tax Consultants", "Finance");
      ("Relocation Services and Lifestyle Management", "Lifestyle");
      ("Real Estate Agency and Property Rentals", "Real Estate");
      ("None of the above", "None") ].

(** [d.get(key, default)] on a table of strings. *)
Definition dict_get (d : gmap string string) (key dflt : string) : string :=
  match d !! key with
  | Some v => v
  | None => dflt
  end.

(** The truth value of [d.get(key)]: [None] and the empty string are false. *)
Definition truthy (o : option string) : bool :=
  match o with
  | Some (String _ _) => true
  | _ => false
  end.

(** The three lines both [audit] and [clean] start a row with. *)
Definition original_of (r : row) : result string :=
  py_strip (row_get r "Category" (VStr "")).

Definition predicted_long_of (r : row) : result string :=
  py_strip (row_get r "Predicted_Tag" (VStr "")).

Definition confidence_of (r : row) : result float :=
  try_except (py_float (row_get r "Confidence_Score" (VFloat 0.0)))
    value_or_type_error (Ok 0.0%float).

(** ** 3. The [clean] command *)

Module Clean.

(** The [stats] dictionary. *)
Record stats : Type := Stats {
  auto_fixed : Z;
  verified : Z;
  low_conf : Z;
  total : Z
}.

Definition stats0 : stats := Stats 0 0 0 0.

Definition incr_total (s : stats) : stats :=
  Stats (auto_fixed s) (verified s) (low_conf s) (total s + 1).
Definition incr_auto_fixed (s : stats) : stats :=
  Stats (auto_fixed s + 1) (verified s) (low_conf s) (total s).
Definition incr_verified (s : stats) : stats :=
  Stats (auto_fixed s) (verified s + 1) (low_conf s) (total s).
Definition incr_low_conf (s : stats) : stats :=
  Stats (auto_fixed s) (verified s) (low_conf s + 1) (total s).

(** [row['Final_Tag'] = tag; row['Audit_Status'] = status] *)
Definition tagged (r : row) (final_tag status : string) : row :=
  <["Audit_Status" := VStr status]> (<["Final_Tag" := VStr final_tag]> r).

(** The body of the loop over the rows, up to [writer.writerow(row)]:
    the row as it is written, and the counters after it. *)
Definition clean_row (r : row) (st : stats) : result (row * stats) :=
  let st := incr_total st in
  do original <- original_of r;
  do predicted_long <- predicted_long_of r;
  do confidence <- confidence_of r;
  let predicted_short_for_comparison :=
    dict_get TAG_MAP predicted_long predicted_long in
  if (0.85 <? confidence)%float
     && negb (String.eqb original predicted_short_for_comparison) then
    let final_tag := SHORT_TAG_MAP !! predicted_long in
    if truthy final_tag
       && negb (String.eqb (default EmptyString final_tag) "None") then
      Ok (tagged r (default EmptyString final_tag) "AUTO_FIXED",
          incr_auto_fixed st)
    else
      Ok (tagged r original "VERIFIED", incr_verified st)
  else if (confidence <? 0.5)%float then
    Ok (tagged r original "NEEDS_REVIEW", incr_low_conf st)
  else
    Ok (tagged r original "VERIFIED", incr_verified st).

(** [for row in reader: ...; writer.writerow(row)]: [out] is the output
    file so far, oldest row first. *)
Fixpoint clean_loop (rows : list row) (out : list row) (st : stats)
    : result (list row * stats) :=
  match rows with
  | [] => Ok (out, st)
  | r :: rows' =>
      do p <- clean_row r st;
      clean_loop rows' (out ++ [fst p])%list (snd p)
  end.

(** The summary table: metric, count, and the percentage before it is
    formatted. *)
Definition summary (st : stats) : result (list (string * Z * float)) :=
  do v <- truediv (verified st) (total st);
  do l <- truediv (low_conf st) (total st);
  do a <- truediv (auto_fixed st) (total st);
  Ok [ ("Total Rows", total st, 100%float);
       ("Verified (Kept Original)", verified st, (v * 100)%float);
       ("Low Confidence (Needs Review)", low_conf st, (l * 100)%float);
       ("Auto-Fixed (High Risk Errors)", auto_fixed st, (a * 100)%float) ].

(** The command on an input file that exists: the header and the rows of
    the output file, and the summary table. *)
Definition clean (fieldnames : list string) (rows : list row)
    : result (list string * list row * list (string * Z * float)) :=
  let fieldnames := (fieldnames ++ ["Audit_Status"; "Final_Tag"])%list in
  do p <- clean_loop rows [] stats0;
  do t <- summary (snd p);
  Ok (fieldnames, fst p, t).

(** *** The decision policy as the specification words it *)

Inductive status : Type := AUTO_FIXED | VERIFIED | NEEDS_REVIEW.

Definition status_name (s : status) : string :=
  match s with
  | AUTO_FIXED => "AUTO_FIXED"
  | VERIFIED => "VERIFIED"
  | NEEDS_REVIEW => "NEEDS_REVIEW"
  end.

Definition spec_policy (comparisonMap finalMap : gmap string string)
    (original_category predicted_label : string) (confidence : float)
    : status * string :=
  let predicted_short :=
    match comparisonMap !! predicted_label with
    | Some short => short
    | None => predicted_label
    end in
  if (0.85 <? confidence)%float
     && negb (String.eqb original_category predicted_short) then
    match finalMap !! predicted_label with
    | Some final_tag =>
        if String.eqb final_tag "None" then (VERIFIED, original_category)
        else (AUTO_FIXED, final_tag)
    | None => (VERIFIED, original_category)
    end
  else if (confidence <? 0.5)%float then (NEEDS_REVIEW, original_category)
  else (VERIFIED, original_category).

(** The counter a status is counted in. *)
Definition counted (s : status) (st : stats) : stats :=
  match s with
  | AUTO_FIXED => incr_auto_fixed st
  | VERIFIED => incr_verified st
  | NEEDS_REVIEW => incr_low_conf st
  end.

End Clean.

(** ** 2. The [audit] command *)

(** [s.replace(old, new)] for a non-empty [old]: the occurrences of [old] are
    replaced from left to right; [skip] counts the characters of an
    occurrence that are still to be dropped. *)
Fixpoint replace_from (old new : string) (skip : nat) (s : string) : string :=
  match s with
  | EmptyString => EmptyString
  | String a s' =>
      match skip with
      | S k => replace_from old new k s'
      | O =>
          if String.prefix old s
          then (new ++ replace_from old new (Nat.pred (String.length old)) s')%string
          else String a (replace_from old new O s')
      end
  end.

Definition replace (old new s : string) : string := replace_from old new O s.

Module Audit.

(** An entry of [danger_rows]. *)
Record danger_row : Type := Danger {
  Name : value;
  Original : string;
  Predicted : string;
  Conf : float
}.

(** The local variables the loop updates. *)
Record counters : Type := Counters {
  total : Z;
  agreements : Z;
  high_conf_agreements : Z;
  high_conf_disagreements : Z;
  low_conf : Z;
  danger_rows : list danger_row
}.

Definition counters0 : counters := Counters 0 0 0 0 0 [].

(** The body of the loop over the rows. *)
Definition audit_row (r : row) (c : counters) : result counters :=
  let total := total c + 1 in
  do original <- original_of r;
  do predicted_long <- predicted_long_of r;
  do confidence <- confidence_of r;
  let predicted_short := dict_get TAG_MAP predicted_long predicted_long in
  let is_match := String.eqb original predicted_short in
  let agreements := if is_match then agreements c + 1 else agreements c in
  let high_conf_agreements :=
    if is_match && (0.8 <? confidence)%float
    then high_conf_agreements c + 1 else high_conf_agreements c in
  let high_conf_disagreements :=
    if negb is_match && (0.8 <? confidence)%float
    then high_conf_disagreements c + 1 else high_conf_disagreements c in
  let danger_rows :=
    if negb is_match && (0.8 <? confidence)%float
    then (danger_rows c
          ++ [Danger (row_get r "Name" VNone) original predicted_long confidence])%list
    else danger_rows c in
  let low_conf :=
    if (confidence <? 0.5)%float then low_conf c + 1 else low_conf c in
  Ok (Counters total agreements high_conf_agreements
        high_conf_disagreements low_conf danger_rows).

Fixpoint audit_loop (rows : list row) (c : counters) : result counters :=
  match rows with
  | [] => Ok c
  | r :: rows' => do c' <- audit_row r c; audit_loop rows' c'
  end.

(** A line of the table of examples; [r['Name'][:30]] needs a string. *)
Definition example_line (d : danger_row)
    : result (string * string * string * float) :=
  match Name d with
  | VStr n =>
      Ok (String.substring 0 30 n, Original d,
          replace " and " (String "010" "& ") (Predicted d), Conf d)
  | VNone | VFloat _ => Raise TypeError
  end.

Fixpoint example_lines (ds : list danger_row)
    : result (list (string * string * string * float)) :=
  match ds with
  | [] => Ok []
  | d :: ds' =>
      do l <- example_line d;
      do ls <- example_lines ds';
      Ok (l :: ls)
  end.

(** What the command prints: the summary table (metric, count, percentage
    before it is formatted), the first ten examples, and how many more
    there are. *)
Record report : Type := Report {
  summary : list (string * Z * float);
  examples : list (string * string * string * float);
  more : option Z
}.

(** The command on an input file that exists. *)
Definition audit (rows : list row) : result report :=
  do c <- audit_loop rows counters0;
  do a <- truediv (agreements c) (total c);
  do h <- truediv (high_conf_agreements c) (total c);
  do l <- truediv (low_conf c) (total c);
  do d <- truediv (high_conf_disagreements c) (total c);
  let table :=
    [ ("Total Rows", total c, 100%float);
      ("Total Agreement", agreements c, (a * 100)%float);
      ("High Confidence Agreement", high_conf_agreements c, (h * 100)%float);
      ("Low Confidence (< 50%)", low_conf c, (l * 100)%float);
      ("Danger Zone (High Conf Mismatch)", high_conf_disagreements c,
       (d * 100)%float) ] in
  do ex <- example_lines (firstn 10 (danger_rows c));
  let n := Z.of_nat (List.length (danger_rows c)) in
  Ok (Report table ex (if 10 <? n then Some (n - 10) else None)).

End Audit.

(** ** 1. The [process] command *)

(** [s.split(',')] *)
Fixpoint split_on (sep : ascii) (s : string) : list string :=
  match s with
  | EmptyString => [EmptyString]
  | String a s' =>
      if Ascii.eqb a sep then EmptyString :: split_on sep s'
      else
        match split_on sep s' with
        | h :: t => String a h :: t
        | [] => [String a EmptyString]
        end
  end.

Module Process.

(** What the zero-shot pipeline returns: the labels by falling score, and
    their scores. *)
Record classification : Type := Classification {
  labels : list string;
  scores : list float
}.

Section Classifier.

(** The model is a collaborator: [classifier text labels] is
    [get_classifier()(text, labels, multi_label=False)], a step on the
    state of the world (the cached pipeline among it) that returns a
    classification or raises. *)
Variable World : Type.
Variable classifier :
  string -> list string -> World -> result classification * World.

Definition run_classification (text : value) (candidate_tags : list string)
    (w : World) : result (string * float) * World :=
  match py_strip text with
  | Raise e => (Raise e, w)
  | Ok text =>
      if String.eqb text EmptyString then (Ok (NONE_TAG, 1.0%float), w)
      else
        let full_tag_list := (candidate_tags ++ [NONE_TAG])%list in
        match classifier text full_tag_list w with
        | (Raise e, w') => (Raise e, w')
        | (Ok result, w') =>
            match labels result, scores result with
            | winner_tag :: _, winner_score :: _ =>
                (Ok (winner_tag, winner_score), w')
            | _, _ => (Raise IndexError, w')
            end
        end
  end.

(** The body of the loop over the rows: the row as it is written. *)
Definition process_row (column : string) (candidate_tags : list string)
    (r : row) (w : World) : result row * World :=
  match r !! column with
  | None => (Raise KeyError, w)
  | Some text_to_classify =>
      match run_classification text_to_classify candidate_tags w with
      | (Ok (winner_tag, winner_score), w') =>
          (Ok (<["Confidence_Score" := VFloat winner_score]>
                 (<["Predicted_Tag" := VStr winner_tag]> r)), w')
      | (Raise _, w') =>
          (Ok (<["Confidence_Score" := VStr "0.0"]>
                 (<["Predicted_Tag" := VStr "ERROR"]> r)), w')
      end
  end.

Fixpoint process_loop (column : string) (candidate_tags : list string)
    (rows : list row) (out : list row) (w : World)
    : result (list row) * World :=
  match rows with
  | [] => (Ok out, w)
  | r :: rows' =>
      match process_row column candidate_tags r w with
      | (Ok r', w') =>
          process_loop column candidate_tags rows' (out ++ [r'])%list w'
      | (Raise e, w') => (Raise e, w')
      end
  end.

(** The command on an input file that exists: the header and the rows of
    the output file. *)
Definition process_csv (original_headers : list string) (rows : list row)
    (column tags : string) (w : World)
    : result (list string * list row) * World :=
  let candidate_tags := map strip (split_on "," tags) in
  if negb (existsb (String.eqb column) original_headers) then (Raise Exit, w)
  else
    let new_headers :=
      (original_headers ++ ["Predicted_Tag"; "Confidence_Score"])%list in
    match process_loop column candidate_tags rows [] w with
    | (Ok out, w') => (Ok (new_headers, out), w')
    | (Raise e, w') => (Raise e, w')
    end.

End Classifier.

End Process.

(** ** Notions the statements use *)

(** A row as the reader yields it, with the three columns of a decision and
    a name. *)
Definition csv_row (name category predicted_tag confidence_score : string)
    : row :=
  list_to_map
    [ ("Name", VStr name); ("Category", VStr category);
      ("Predicted_Tag", VStr predicted_tag);
      ("Confidence_Score", VStr confidence_score) ].

(** The scenarios of the specification. *)
Definition scenario_auto_fix : row :=
  csv_row "Acme" "Real Estate"
    "Legal Services and Immigration Consultants" "0.90".

Definition scenario_no_match : row :=
  csv_row "Acme" "Real Estate" "None of the above" "0.95".

Definition scenario_needs_review : row :=
  csv_row "Acme" "Finance & Tax"
    "Chartered Accountants and Tax Consultants" "0.40".

Definition scenario_low_mismatch : row :=
  csv_row "Acme" "Real Estate"
    "Legal Services and Immigration Consultants" "0.30".

(** A row whose [Confidence_Score] line lacks the cell, and one whose cell is
    no number. *)
Definition scenario_missing_score : row :=
  list_to_map
    [ ("Name", VStr "Acme"); ("Category", VStr "Real Estate");
      ("Predicted_Tag", VStr "Real Estate Agency and Property Rentals");
      ("Confidence_Score", VNone) ].

Definition scenario_bad_score : row :=
  csv_row "Acme" "Real Estate"
    "Real Estate Agency and Property Rentals" "high".

(** Whether [audit] and [clean] can trim the two text cells of a row: each
    is a string, or its column is absent. *)
Definition readable (r : row) : bool :=
  match original_of r, predicted_long_of r with
  | Ok _, Ok _ => true
  | _, _ => false
  end.

(** Whether the trimmed category of a row is the short form of its
    predicted label. *)
Definition agrees (r : row) : bool :=
  match original_of r, predicted_long_of r with
  | Ok original, Ok predicted_long =>
      String.eqb original (dict_get TAG_MAP predicted_long predicted_long)
  | _, _ => false
  end.

Definition disagrees (r : row) : bool := negb (agrees r).

(** Whether the confidence of a row is below 0.5. *)
Definition low_confidence (r : row) : bool :=
  match confidence_of r with
  | Ok confidence => (confidence <? 0.5)%float
  | Raise _ => false
  end.

(** The number of rows a test holds of. *)
Fixpoint count (f : row -> bool) (rows : list row) : Z :=
  match rows with
  | [] => 0
  | r :: rows' => (if f r then 1 else 0) + count f rows'
  end.


(** A row after it went through the output file: [csv.DictWriter] writes
    [None] as an empty cell, which [csv.DictReader] reads back as the empty
    string.  (A row of [clean] holds no float.) *)
Definition written (r : row) : row :=
  (fun v => match v with VNone => VStr EmptyString | _ => v end) <$> r.

(** A text that is empty or holds white space only. *)
Fixpoint all_space (s : string) : bool :=
  match s with
  | EmptyString => true
  | String a s' => is_space a && all_space s'
  end.


(** The row [process] writes when the classification of [r] raised. *)
Definition error_row (r : row) : row :=
  <["Confidence_Score" := VStr "0.0"]> (<["Predicted_Tag" := VStr "ERROR"]> r).

(** The row [process] writes when the classification of [r] returned. *)
Definition classified_row (r : row) (winner_tag : string)
    (winner_score : float) : row :=
  <["Confidence_Score" := VFloat winner_score]>
    (<["Predicted_Tag" := VStr winner_tag]> r).

(** A stand-in for the model, to run [process] on examples: the state of the
    world is the list of the texts it was called on; it raises on the text
    [boom] and otherwise elects the first label with the score 0.9. *)
Definition recording_classifier (text : string) (labels : list string)
    (calls : list string) : result Process.classification * list string :=
  if String.eqb text "boom"
  then (Raise (ClassifierError "boom"), (calls ++ [text])%list)
  else (Ok (Process.Classification labels (map (fun _ => 0.9%float) labels)),
        (calls ++ [text])%list).


Definition listing (name description : string) : row :=
  list_to_map [ ("Name", VStr name); ("Description", VStr description) ].

(** What [clean] decides for a row: the two cells it adds. *)
Definition decision (res : result (row * Clean.stats))
    : result (option value * option value) :=
  match res with
  | Ok (r, _) => Ok (r !! "Audit_Status", r !! "Final_Tag")
  | Raise e => Raise e
  end.

(** Whether an output row of [clean] carries the status [s]. *)
Definition has_status (s : string) (o : row) : bool :=
  match o !! "Audit_Status" with
  | Some (VStr t) => String.eqb t s
  | _ => false
  end.

(** [o] is the row [clean] writes for the row [r], whatever the counters. *)
Definition cleaned (r o : row) : Prop :=
  forall st : Clean.stats,
    exists st' : Clean.stats, Clean.clean_row r st = Ok (o, st').

(** Whether the confidence of a row is above 0.8. *)
Definition high_confidence (r : row) : bool :=
  match confidence_of r with
  | Ok confidence => (0.8 <? confidence)%float
  | Raise _ => false
  end.

(** The rows of the danger zone: a disagreement with high confidence. *)
Definition in_danger (r : row) : bool := disagrees r && high_confidence r.

Definition agrees_high (r : row) : bool := agrees r && high_confidence r.

Definition ok_or {A : Type} (dflt : A) (res : result A) : A :=
  match res with
  | Ok a => a
  | Raise _ => dflt
  end.

(** The entry of [danger_rows] for a row. *)
Definition danger_entry (r : row) : Audit.danger_row :=
  Audit.Danger (row_get r "Name" VNone)
    (ok_or EmptyString (original_of r))
    (ok_or EmptyString (predicted_long_of r))
    (ok_or 0%float (confidence_of r)).

(** Whether the [Name] of an entry is a string. *)
Definition named (d : Audit.danger_row) : bool :=
  match Audit.Name d with
  | VStr _ => true
  | VNone | VFloat _ => false
  end.


(** The call [process] is to make for a text: none when it is no string or
    is blank, else one on the trimmed text and the candidate tags followed
    by the sentinel. *)
Definition text_call (candidate_tags : list string) (text : value)
    : list (string * list string) :=
  match text with
  | VStr text =>
      if String.eqb (strip text) EmptyString then []
      else [(strip text, (candidate_tags ++ [NONE_TAG])%list)]
  | VNone | VFloat _ => []
  end.

Definition call_of (column : string) (candidate_tags : list string) (r : row)
    : list (string * list string) :=
  match r !! column with
  | Some text => text_call candidate_tags text
  | None => []
  end.

Definition calls_of (column : string) (candidate_tags : list string)
    (rows : list row) : list (string * list string) :=
  flat_map (call_of column candidate_tags) rows.

(** A line that stops before the [Category] cell. *)
Definition scenario_short_line : row :=
  <["Category" := VNone]> scenario_no_match.

(** A high-confidence mismatch in a file that has no [Name] column. *)
Definition scenario_nameless : row :=
  list_to_map
    [ ("Category", VStr "Real Estate");
      ("Predicted_Tag", VStr "Legal Services and Immigration Consultants");
      ("Confidence_Score", VStr "0.97") ].

(** The metric and the count of each line of a summary table. *)
Definition counts_of (table : list (string * Z * float))
    : list (string * Z) :=
  map (fun line => (fst (fst line), snd (fst line))) table.


(** A listing with a category, as [process] reads it. *)
Definition tagged_listing (name category description : string) : row :=
  list_to_map
    [ ("Name", VStr name); ("Category", VStr category);
      ("Description", VStr description) ].

(** A row whose confidence is not a number, and one whose category is
    already the final form of its predicted label. *)
Definition scenario_nan : row :=
  csv_row "Acme" "Real Estate"
    "Legal Services and Immigration Consultants" "nan".

Definition scenario_final_form : row :=
  csv_row "Acme" "Legal" "Legal Services and Immigration Consultants" "0.9".

(** ** Facts about floats, strings and the tables *)

Lemma SFcompare_antisym (x y : spec_float) :
  SFcompare y x = option_map CompOpp (SFcompare x y).
Proof.
  destruct x as [sx | sx | | sx mx ex], y as [sy | sy | | sy my ey];
    simpl; try reflexivity;
    try (destruct sx; reflexivity); try (destruct sy; reflexivity);
    try (destruct sx, sy; reflexivity).
  f_equal.
  change (Pos.compare_cont Eq mx my) with (Pos.compare mx my).
  change (Pos.compare_cont Eq my mx) with (Pos.compare my mx).
  rewrite (Z.compare_antisym ex ey), (Pos.compare_antisym mx my).
  destruct sx, sy; simpl; try reflexivity;
    destruct (ex ?= ey); simpl; try reflexivity;
    destruct (mx ?= my)%positive; reflexivity.
Qed.

Lemma leb_not_gt (x y : float) :
  (x <=? y)%float = true -> (y <? x)%float = false.
Proof.
  rewrite leb_spec, ltb_spec. unfold SFleb, SFltb.
  rewrite (SFcompare_antisym (Prim2SF x) (Prim2SF y)).
  destruct (SFcompare (Prim2SF x) (Prim2SF y)) as [[ | | ] | ];
    simpl; congruence.
Qed.

Lemma SHORT_TAG_MAP_values (k v : string) :
  SHORT_TAG_MAP !! k = Some v ->
  (k, v) ∈ [ ("Legal Services and Immigration Consultants", "Legal");
             ("Chartered Accountants and Tax Consultants", "Finance");
             ("Relocation Services and Lifestyle Management", "Lifestyle");
             ("Real Estate Agency and Property Rentals", "Real Estate");
             ("None of the above", "None") ].
Proof. unfold SHORT_TAG_MAP. apply elem_of_list_to_map_2. Qed.

Lemma SHORT_TAG_MAP_truthy (k v : string) :
  SHORT_TAG_MAP !! k = Some v -> truthy (Some v) = true.
Proof.
  intros H. apply SHORT_TAG_MAP_values in H.
  repeat (apply elem_of_cons in H as [H | H];
          [injection H as _ ->; reflexivity | ]).
  apply elem_of_nil in H. destruct H.
Qed.

Lemma SHORT_TAG_MAP_sentinel : SHORT_TAG_MAP !! NONE_TAG = Some "None".
Proof. vm_compute. reflexivity. Qed.

Lemma confidence_of_total (r : row) : exists c, confidence_of r = Ok c.
Proof.
  unfold confidence_of, row_get.
  destruct (r !! "Confidence_Score") as [[ | s | f] | ]; simpl; eauto.
  destruct (PyFloat.parse s); simpl; eauto.
Qed.

Lemma status_name_inj (s s' : Clean.status) :
  Clean.status_name s = Clean.status_name s' -> s = s'.
Proof. destruct s, s'; simpl; congruence. Qed.

(** The loop body computes the policy of the specification. *)
Lemma clean_row_policy (r : row) (st : Clean.stats) (o p : string) (c : float) :
  original_of r = Ok o -> predicted_long_of r = Ok p -> confidence_of r = Ok c ->
  Clean.clean_row r st =
    Ok (Clean.tagged r (snd (Clean.spec_policy TAG_MAP SHORT_TAG_MAP o p c))
          (Clean.status_name (fst (Clean.spec_policy TAG_MAP SHORT_TAG_MAP o p c))),
        Clean.counted (fst (Clean.spec_policy TAG_MAP SHORT_TAG_MAP o p c))
          (Clean.incr_total st)).
Proof.
  intros Ho Hp Hc. unfold Clean.clean_row, Clean.spec_policy.
  rewrite Ho, Hp, Hc. unfold bind, dict_get.
  destruct (0.85 <? c)%float; simpl andb.
  - destruct (negb _); [ | destruct (c <? 0.5)%float; reflexivity].
    destruct (SHORT_TAG_MAP !! p) as [v | ] eqn:E; [ | reflexivity].
    rewrite (SHORT_TAG_MAP_truthy p v E). unfold default. simpl andb.
    destruct (String.eqb v "None"); reflexivity.
  - destruct (c <? 0.5)%float; reflexivity.
Qed.

(** A row that [clean] gets through had its two text cells read. *)
Lemma clean_row_inv (r r' : row) (st st' : Clean.stats) :
  Clean.clean_row r st = Ok (r', st') ->
  exists o p c,
    original_of r = Ok o /\ predicted_long_of r = Ok p /\ confidence_of r = Ok c.
Proof.
  unfold Clean.clean_row. intros H.
  destruct (original_of r) as [o | ]; [ | discriminate].
  destruct (predicted_long_of r) as [p | ]; [ | discriminate].
  destruct (confidence_of r) as [c | ]; [ | discriminate].
  eauto 10.
Qed.

Lemma tagged_status (r : row) (t s : string) :
  Clean.tagged r t s !! "Audit_Status" = Some (VStr s).
Proof. unfold Clean.tagged. apply lookup_insert_eq. Qed.

Lemma tagged_final (r : row) (t s : string) :
  Clean.tagged r t s !! "Final_Tag" = Some (VStr t).
Proof.
  unfold Clean.tagged.
  rewrite lookup_insert_ne by discriminate. apply lookup_insert_eq.
Qed.

Lemma tagged_other (r : row) (t s k : string) :
  k <> "Audit_Status" -> k <> "Final_Tag" -> Clean.tagged r t s !! k = r !! k.
Proof.
  intros H1 H2. unfold Clean.tagged.
  rewrite !lookup_insert_ne by congruence. reflexivity.
Qed.

(** ** The decision policy of [clean] *)

(** X18. For every row whose [Category] and [Predicted_Tag] cells can be
    trimmed (each is a string, or its column is absent), the status and the
    final tag [clean] writes are those of the precedence-ordered policy of
    the specification, applied to the trimmed category, the trimmed
    predicted label and the parsed confidence; the counter of that status is
    the one incremented, and the status written is the name of exactly one
    of the three statuses. *)
Theorem clean_row_refines_policy (r : row) (st : Clean.stats)
    (original_category predicted_label : string) :
  original_of r = Ok original_category ->
  predicted_long_of r = Ok predicted_label ->
  exists (confidence : float) (s : Clean.status) (final_tag : string),
    confidence_of r = Ok confidence /\
    Clean.spec_policy TAG_MAP SHORT_TAG_MAP
      original_category predicted_label confidence = (s, final_tag) /\
    Clean.clean_row r st =
      Ok (Clean.tagged r final_tag (Clean.status_name s),
          Clean.counted s (Clean.incr_total st)) /\
    Clean.tagged r final_tag (Clean.status_name s) !! "Audit_Status"
      = Some (VStr (Clean.status_name s)) /\
    Clean.tagged r final_tag (Clean.status_name s) !! "Final_Tag"
      = Some (VStr final_tag) /\
    (forall s' : Clean.status,
        Clean.tagged r final_tag (Clean.status_name s) !! "Audit_Status"
          = Some (VStr (Clean.status_name s')) -> s' = s).
Proof.
  intros Ho Hp. destruct (confidence_of_total r) as [c Hc].
  exists c.
  destruct (Clean.spec_policy TAG_MAP SHORT_TAG_MAP
              original_category predicted_label c) as [s t] eqn:Hpol.
  exists s, t. split; [exact Hc | ]. split; [reflexivity | ].
  split.
  - rewrite (clean_row_policy r st _ _ c Ho Hp Hc), Hpol. reflexivity.
  - rewrite tagged_status, tagged_final. repeat split.
    intros s' H. injection H as H. symmetry. now apply status_name_inj.
Qed.

Lemma clean_row_refines_policy_witness :
  exists (confidence : float) (s : Clean.status) (final_tag : string),
    confidence_of scenario_auto_fix = Ok confidence /\
    Clean.spec_policy TAG_MAP SHORT_TAG_MAP
      "Real Estate" "Legal Services and Immigration Consultants" confidence
      = (s, final_tag) /\
    Clean.clean_row scenario_auto_fix Clean.stats0 =
      Ok (Clean.tagged scenario_auto_fix final_tag (Clean.status_name s),
          Clean.counted s (Clean.incr_total Clean.stats0)) /\
    Clean.tagged scenario_auto_fix final_tag (Clean.status_name s)
      !! "Audit_Status" = Some (VStr (Clean.status_name s)) /\
    Clean.tagged scenario_auto_fix final_tag (Clean.status_name s)
      !! "Final_Tag" = Some (VStr final_tag) /\
    (forall s' : Clean.status,
        Clean.tagged scenario_auto_fix final_tag (Clean.status_name s)
          !! "Audit_Status" = Some (VStr (Clean.status_name s')) -> s' = s).
Proof.
  apply (clean_row_refines_policy scenario_auto_fix Clean.stats0
           "Real Estate" "Legal Services and Immigration Consultants");
    reflexivity.
Defined.

(** C2. For every row [clean] gets through: when the status written is
    [AUTO_FIXED], the final tag is the entry of [SHORT_TAG_MAP] for the
    predicted label and is not the token [None]; with any other status the
    final tag is the trimmed category itself; so the final tag is the
    trimmed category or a value of [SHORT_TAG_MAP], and a predicted label
    the table does not map never becomes the final tag. *)
Theorem final_tag_invariant (r r' : row) (st st' : Clean.stats)
    (original_category predicted_label : string) :
  original_of r = Ok original_category ->
  predicted_long_of r = Ok predicted_label ->
  Clean.clean_row r st = Ok (r', st') ->
  exists status final_tag : string,
    r' !! "Audit_Status" = Some (VStr status) /\
    r' !! "Final_Tag" = Some (VStr final_tag) /\
    (status = "AUTO_FIXED" ->
       SHORT_TAG_MAP !! predicted_label = Some final_tag /\
       final_tag <> "None") /\
    (status <> "AUTO_FIXED" -> final_tag = original_category) /\
    (final_tag = original_category \/
     exists label : string, SHORT_TAG_MAP !! label = Some final_tag) /\
    (SHORT_TAG_MAP !! predicted_label = None ->
       final_tag = original_category).
Proof.
  intros Ho Hp H. destruct (confidence_of_total r) as [c Hc].
  rewrite (clean_row_policy r st _ _ c Ho Hp Hc) in H.
  injection H as <- _.
  eexists _, _. split; [apply tagged_status | ].
  split; [apply tagged_final | ].
  unfold Clean.spec_policy.
  destruct ((0.85 <? c)%float && negb _); simpl.
  - destruct (SHORT_TAG_MAP !! predicted_label) as [v | ] eqn:E; simpl.
    + destruct (String.eqb_spec v "None") as [-> | Hv]; simpl.
      * repeat split; try congruence; auto.
      * repeat split; try congruence; eauto.
    + repeat split; try congruence; auto.
  - destruct (c <? 0.5)%float; simpl; repeat split; try congruence; auto.
Qed.

Lemma final_tag_invariant_witness :
  exists status final_tag : string,
    Clean.tagged scenario_auto_fix "Legal" "AUTO_FIXED" !! "Audit_Status"
      = Some (VStr status) /\
    Clean.tagged scenario_auto_fix "Legal" "AUTO_FIXED" !! "Final_Tag"
      = Some (VStr final_tag) /\
    (status = "AUTO_FIXED" ->
       SHORT_TAG_MAP !! "Legal Services and Immigration Consultants"
         = Some final_tag /\
       final_tag <> "None") /\
    (status <> "AUTO_FIXED" -> final_tag = "Real Estate") /\
    (final_tag = "Real Estate" \/
     exists label : string, SHORT_TAG_MAP !! label = Some final_tag) /\
    (SHORT_TAG_MAP !! "Legal Services and Immigration Consultants" = None ->
       final_tag = "Real Estate").
Proof.
  apply (final_tag_invariant scenario_auto_fix
           (Clean.tagged scenario_auto_fix "Legal" "AUTO_FIXED")
           Clean.stats0 (Clean.Stats 1 0 0 1)
           "Real Estate" "Legal Services and Immigration Consultants");
    reflexivity.
Defined.

(** C3. A row is [AUTO_FIXED] only when its confidence is above 0.85, its
    trimmed category differs from the short form of the predicted label, and
    [SHORT_TAG_MAP] maps the predicted label to a value other than [None].
    So a row with confidence at most 0.85, or whose category equals the
    short form, is not [AUTO_FIXED]; a predicted label that is unmapped or is
    the sentinel keeps the category whatever the confidence; and the row
    (Real Estate, None of the above, 0.95) is [VERIFIED] with the final tag
    Real Estate. *)
Theorem auto_fixed_only_when (r r' : row) (st st' : Clean.stats)
    (original_category predicted_label : string) (confidence : float) :
  original_of r = Ok original_category ->
  predicted_long_of r = Ok predicted_label ->
  confidence_of r = Ok confidence ->
  Clean.clean_row r st = Ok (r', st') ->
  (r' !! "Audit_Status" = Some (VStr "AUTO_FIXED") ->
     (0.85 <? confidence)%float = true /\
     original_category <> dict_get TAG_MAP predicted_label predicted_label /\
     exists final_tag : string,
       SHORT_TAG_MAP !! predicted_label = Some final_tag /\
       final_tag <> "None") /\
  ((confidence <=? 0.85)%float = true \/
   original_category = dict_get TAG_MAP predicted_label predicted_label ->
     r' !! "Audit_Status" <> Some (VStr "AUTO_FIXED")) /\
  (SHORT_TAG_MAP !! predicted_label = None \/ predicted_label = NONE_TAG ->
     r' !! "Audit_Status" <> Some (VStr "AUTO_FIXED") /\
     r' !! "Final_Tag" = Some (VStr original_category)) /\
  confidence_of scenario_no_match = Ok 0.95%float /\
  decision (Clean.clean_row scenario_no_match st)
    = Ok (Some (VStr "VERIFIED"), Some (VStr "Real Estate")).
Proof.
  intros Ho Hp Hc H.
  rewrite (clean_row_policy r st _ _ _ Ho Hp Hc) in H.
  injection H as <- _. rewrite tagged_status, tagged_final.
  assert (Hauto :
    Clean.status_name
      (fst (Clean.spec_policy TAG_MAP SHORT_TAG_MAP
              original_category predicted_label confidence)) = "AUTO_FIXED" ->
    (0.85 <? confidence)%float = true /\
    original_category <> dict_get TAG_MAP predicted_label predicted_label /\
    exists final_tag : string,
      SHORT_TAG_MAP !! predicted_label = Some final_tag /\
      final_tag <> "None" /\
      snd (Clean.spec_policy TAG_MAP SHORT_TAG_MAP
             original_category predicted_label confidence) = final_tag).
  { unfold Clean.spec_policy, dict_get.
    destruct (0.85 <? confidence)%float; simpl andb.
    - destruct (String.eqb_spec original_category
                  match TAG_MAP !! predicted_label with
                  | Some v => v
                  | None => predicted_label
                  end) as [Heq | Hne]; simpl negb; cbv iota.
      + destruct (confidence <? 0.5)%float; simpl; discriminate.
      + destruct (SHORT_TAG_MAP !! predicted_label) as [v | ];
          [ | simpl; discriminate].
        destruct (String.eqb_spec v "None"); simpl; [discriminate | ].
        intros _. eauto 10.
    - destruct (confidence <? 0.5)%float; simpl; discriminate. }
  split; [ | split; [ | split; [ | split]]].
  - intros [= Hs]. destruct (Hauto Hs) as (H1 & H2 & v & H3 & H4 & _). eauto.
  - intros Hor [= Hs]. destruct (Hauto Hs) as (H1 & H2 & _).
    destruct Hor as [Hle | Heq]; [ | contradiction].
    apply leb_not_gt in Hle. congruence.
  - intros Hor.
    assert (Hnot :
      Clean.status_name
        (fst (Clean.spec_policy TAG_MAP SHORT_TAG_MAP
                original_category predicted_label confidence))
        <> "AUTO_FIXED").
    { intros Hs. destruct (Hauto Hs) as (_ & _ & v & H3 & H4 & _).
      destruct Hor as [Hnone | ->]; [congruence | ].
      rewrite SHORT_TAG_MAP_sentinel in H3. congruence. }
    split; [congruence | ].
    do 2 f_equal. revert Hnot. unfold Clean.spec_policy.
    destruct ((0.85 <? confidence)%float && negb _); simpl.
    + destruct (SHORT_TAG_MAP !! predicted_label) as [v | ]; simpl;
        [ | reflexivity].
      destruct (String.eqb v "None"); simpl; [reflexivity | congruence].
    + destruct (confidence <? 0.5)%float; reflexivity.
  - reflexivity.
  - unfold Clean.clean_row.
    change (original_of scenario_no_match) with (Ok "Real Estate" : result string).
    change (predicted_long_of scenario_no_match)
      with (Ok "None of the above" : result string).
    change (confidence_of scenario_no_match) with (Ok 0.95%float : result float).
    reflexivity.
Qed.

Lemma auto_fixed_only_when_witness :
  (Clean.tagged scenario_auto_fix "Legal" "AUTO_FIXED" !! "Audit_Status"
     = Some (VStr "AUTO_FIXED") ->
     (0.85 <? 0.9)%float = true /\
     "Real Estate"
       <> dict_get TAG_MAP "Legal Services and Immigration Consultants"
            "Legal Services and Immigration Consultants" /\
     exists final_tag : string,
       SHORT_TAG_MAP !! "Legal Services and Immigration Consultants"
         = Some final_tag /\
       final_tag <> "None") /\
  ((0.9 <=? 0.85)%float = true \/
   "Real Estate"
     = dict_get TAG_MAP "Legal Services and Immigration Consultants"
         "Legal Services and Immigration Consultants" ->
     Clean.tagged scenario_auto_fix "Legal" "AUTO_FIXED" !! "Audit_Status"
       <> Some (VStr "AUTO_FIXED")) /\
  (SHORT_TAG_MAP !! "Legal Services and Immigration Consultants" = None \/
   "Legal Services and Immigration Consultants" = NONE_TAG ->
     Clean.tagged scenario_auto_fix "Legal" "AUTO_FIXED" !! "Audit_Status"
       <> Some (VStr "AUTO_FIXED") /\
     Clean.tagged scenario_auto_fix "Legal" "AUTO_FIXED" !! "Final_Tag"
       = Some (VStr "Real Estate")) /\
  confidence_of scenario_no_match = Ok 0.95%float /\
  decision (Clean.clean_row scenario_no_match Clean.stats0)
    = Ok (Some (VStr "VERIFIED"), Some (VStr "Real Estate")).
Proof.
  apply (auto_fixed_only_when scenario_auto_fix
           (Clean.tagged scenario_auto_fix "Legal" "AUTO_FIXED")
           Clean.stats0 (Clean.Stats 1 0 0 1)
           "Real Estate" "Legal Services and Immigration Consultants"
           0.9%float);
    reflexivity.
Defined.

(** ** The counters of [audit] *)

Lemma audit_row_counts (r : row) (c : Audit.counters) :
  readable r = true ->
  exists c' : Audit.counters,
    Audit.audit_row r c = Ok c' /\
    Audit.total c' = Audit.total c + 1 /\
    Audit.agreements c'
      = Audit.agreements c + (if agrees r then 1 else 0) /\
    Audit.high_conf_agreements c <= Audit.high_conf_agreements c'
      <= Audit.high_conf_agreements c + (if agrees r then 1 else 0) /\
    Audit.high_conf_disagreements c <= Audit.high_conf_disagreements c'
      <= Audit.high_conf_disagreements c + (if disagrees r then 1 else 0) /\
    Audit.low_conf c'
      = Audit.low_conf c + (if low_confidence r then 1 else 0).
Proof.
  unfold readable, disagrees, agrees, low_confidence, Audit.audit_row.
  destruct (original_of r) as [o | ]; [ | discriminate].
  destruct (predicted_long_of r) as [p | ]; [ | discriminate].
  destruct (confidence_of_total r) as [cf ->]. intros _. unfold bind.
  eexists. split; [reflexivity | ]. simpl.
  destruct (String.eqb o (dict_get TAG_MAP p p)), (0.8 <? cf)%float,
    (cf <? 0.5)%float; simpl; lia.
Qed.

Lemma audit_loop_counts (rows : list row) :
  forall c : Audit.counters,
    forallb readable rows = true ->
    exists c' : Audit.counters,
      Audit.audit_loop rows c = Ok c' /\
      Audit.total c' = Audit.total c + Z.of_nat (List.length rows) /\
      Audit.agreements c' = Audit.agreements c + count agrees rows /\
      Audit.high_conf_agreements c <= Audit.high_conf_agreements c'
        <= Audit.high_conf_agreements c + count agrees rows /\
      Audit.high_conf_disagreements c <= Audit.high_conf_disagreements c'
        <= Audit.high_conf_disagreements c + count disagrees rows /\
      Audit.low_conf c' = Audit.low_conf c + count low_confidence rows.
Proof.
  induction rows as [ | r rows IH]; intros c Hrows.
  - exists c. simpl. repeat split; lia.
  - simpl in Hrows. apply andb_prop in Hrows as [Hr Hrows].
    destruct (audit_row_counts r c Hr) as (c1 & Hstep & Ht & Ha & Hh & Hd & Hl).
    destruct (IH c1 Hrows) as (c' & Hloop & Ht' & Ha' & Hh' & Hd' & Hl').
    exists c'. split.
    + simpl. rewrite Hstep. exact Hloop.
    + change (count ?f (r :: rows))
        with ((if f r then 1 else 0) + count f rows).
      rewrite length_cons, Nat2Z.inj_succ. repeat split; lia.
Qed.

Lemma count_split (rows : list row) :
  count agrees rows + count disagrees rows = Z.of_nat (List.length rows).
Proof.
  induction rows as [ | r rows IH]; [reflexivity | ].
  change (count ?f (r :: rows)) with ((if f r then 1 else 0) + count f rows).
  rewrite length_cons, Nat2Z.inj_succ. unfold disagrees at 1.
  destruct (agrees r); simpl; lia.
Qed.

(** C4 (the code departs from the claim). On an input of zero records the
    loop leaves [total] at 0 and the first percentage of the report,
    [agreements / total], raises [ZeroDivisionError]: no report is made. *)
Theorem audit_zero_rows_raises : Audit.audit [] = Raise ZeroDivisionError.
Proof. reflexivity. Qed.

(** C5. For every sequence of rows [audit] can read, the loop ends with
    counters such that: [total] is the number of rows; [agreements] plus the
    number of rows that do not agree is [total]; the high-confidence
    agreements are at most [agreements]; the high-confidence disagreements
    are at most [total - agreements]; and [low_conf] is the number of rows
    with confidence below 0.5, whether they agree or not: the row of the
    needs-review scenario counts as an agreement and as low confidence, a
    low-confidence mismatch counts as low confidence and as no agreement. *)
Theorem audit_bucket_counts (rows : list row) :
  forallb readable rows = true ->
  exists c : Audit.counters,
    Audit.audit_loop rows Audit.counters0 = Ok c /\
    Audit.total c = Z.of_nat (List.length rows) /\
    Audit.agreements c = count agrees rows /\
    Audit.agreements c + count disagrees rows = Audit.total c /\
    0 <= Audit.high_conf_agreements c <= Audit.agreements c /\
    0 <= Audit.high_conf_disagreements c
      <= Audit.total c - Audit.agreements c /\
    Audit.low_conf c = count low_confidence rows /\
    Audit.audit_loop [scenario_needs_review] Audit.counters0
      = Ok (Audit.Counters 1 1 0 0 1 []) /\
    Audit.audit_loop [scenario_low_mismatch] Audit.counters0
      = Ok (Audit.Counters 1 0 0 0 1 []).
Proof.
  intros Hrows.
  destruct (audit_loop_counts rows Audit.counters0 Hrows)
    as (c & Hloop & Ht & Ha & Hh & Hd & Hl).
  pose proof (count_split rows) as Hsplit. simpl in Ht, Ha, Hh, Hd, Hl.
  exists c. split; [exact Hloop | ].
  repeat split; try lia; reflexivity.
Qed.

Lemma audit_bucket_counts_witness :
  exists c : Audit.counters,
    Audit.audit_loop
      [scenario_auto_fix; scenario_no_match; scenario_needs_review;
       scenario_low_mismatch; scenario_bad_score] Audit.counters0 = Ok c /\
    Audit.total c = 5 /\
    Audit.agreements c
      = count agrees
          [scenario_auto_fix; scenario_no_match; scenario_needs_review;
           scenario_low_mismatch; scenario_bad_score] /\
    Audit.agreements c
      + count disagrees
          [scenario_auto_fix; scenario_no_match; scenario_needs_review;
           scenario_low_mismatch; scenario_bad_score] = Audit.total c /\
    0 <= Audit.high_conf_agreements c <= Audit.agreements c /\
    0 <= Audit.high_conf_disagreements c
      <= Audit.total c - Audit.agreements c /\
    Audit.low_conf c
      = count low_confidence
          [scenario_auto_fix; scenario_no_match; scenario_needs_review;
           scenario_low_mismatch; scenario_bad_score] /\
    Audit.audit_loop [scenario_needs_review] Audit.counters0
      = Ok (Audit.Counters 1 1 0 0 1 []) /\
    Audit.audit_loop [scenario_low_mismatch] Audit.counters0
      = Ok (Audit.Counters 1 0 0 0 1 []).
Proof.
  apply (audit_bucket_counts
           [scenario_auto_fix; scenario_no_match; scenario_needs_review;
            scenario_low_mismatch; scenario_bad_score]).
  reflexivity.
Defined.

(** ** Malformed confidence values *)



(** ** The decision of [clean] as a function of three cells *)

Lemma clean_row_decision (r : row) (st : Clean.stats) :
  decision (Clean.clean_row r st) =
    do o <- original_of r;
    do p <- predicted_long_of r;
    do c <- confidence_of r;
    Ok (Some (VStr (Clean.status_name
                      (fst (Clean.spec_policy TAG_MAP SHORT_TAG_MAP o p c)))),
        Some (VStr (snd (Clean.spec_policy TAG_MAP SHORT_TAG_MAP o p c)))).
Proof.
  destruct (original_of r) as [o | e] eqn:Ho;
    [ | unfold Clean.clean_row; rewrite Ho; reflexivity].
  destruct (predicted_long_of r) as [p | e] eqn:Hp;
    [ | unfold Clean.clean_row; rewrite Ho, Hp; reflexivity].
  destruct (confidence_of_total r) as [c Hc].
  rewrite (clean_row_policy r st o p c Ho Hp Hc), Hc. unfold bind, decision.
  rewrite tagged_status, tagged_final. reflexivity.
Qed.

Lemma decision_ext (r1 r2 : row) (st1 st2 : Clean.stats) :
  original_of r1 = original_of r2 ->
  predicted_long_of r1 = predicted_long_of r2 ->
  confidence_of r1 = confidence_of r2 ->
  decision (Clean.clean_row r1 st1) = decision (Clean.clean_row r2 st2).
Proof.
  intros Ho Hp Hc. rewrite !clean_row_decision, Ho, Hp, Hc. reflexivity.
Qed.

(** The three cells of a row decide what [clean] reads from it. *)
Lemma reads_ext (r1 r2 : row) :
  r2 !! "Category" = r1 !! "Category" ->
  r2 !! "Predicted_Tag" = r1 !! "Predicted_Tag" ->
  r2 !! "Confidence_Score" = r1 !! "Confidence_Score" ->
  original_of r2 = original_of r1 /\
  predicted_long_of r2 = predicted_long_of r1 /\
  confidence_of r2 = confidence_of r1.
Proof.
  intros H1 H2 H3.
  unfold original_of, predicted_long_of, confidence_of, row_get.
  rewrite H1, H2, H3. repeat split.
Qed.

Lemma tagged_idem (r : row) (t s : string) :
  Clean.tagged (Clean.tagged r t s) t s = Clean.tagged r t s.
Proof.
  apply map_eq. intros k.
  destruct (decide (k = "Audit_Status")) as [-> | Hk1];
    [rewrite !tagged_status; reflexivity | ].
  destruct (decide (k = "Final_Tag")) as [-> | Hk2];
    [rewrite !tagged_final; reflexivity | ].
  rewrite !tagged_other by assumption. reflexivity.
Qed.

(** The output file gives back what [clean] read from a row it got
    through. *)
Lemma written_reads (r : row) (o p : string) :
  original_of r = Ok o -> predicted_long_of r = Ok p ->
  original_of (written r) = Ok o /\
  predicted_long_of (written r) = Ok p /\
  confidence_of (written r) = confidence_of r.
Proof.
  unfold original_of, predicted_long_of, confidence_of, row_get, written.
  rewrite !lookup_fmap. intros Ho Hp. repeat split.
  - destruct (r !! "Category") as [[ | s | f] | ]; simpl in *;
      congruence.
  - destruct (r !! "Predicted_Tag") as [[ | s | f] | ]; simpl in *;
      congruence.
  - destruct (r !! "Confidence_Score") as [[ | s | f] | ]; reflexivity.
Qed.

(** C9. The decision of [clean] is idempotent.  Let [clean] write the row
    [r1] for some row.  Every row that has the [Category], [Predicted_Tag]
    and [Confidence_Score] cells of [r1], whatever its other columns, gets
    the [Audit_Status] and the [Final_Tag] of [r1]; [clean] writes [r1]
    itself back unchanged; and so it decides for [r1] as read back from the
    output file. *)
Theorem clean_row_idempotent (r r1 r2 : row) (st st1 st2 : Clean.stats) :
  Clean.clean_row r st = Ok (r1, st1) ->
  r2 !! "Category" = r1 !! "Category" ->
  r2 !! "Predicted_Tag" = r1 !! "Predicted_Tag" ->
  r2 !! "Confidence_Score" = r1 !! "Confidence_Score" ->
  decision (Clean.clean_row r2 st2)
    = Ok (r1 !! "Audit_Status", r1 !! "Final_Tag") /\
  (exists st3 : Clean.stats, Clean.clean_row r1 st2 = Ok (r1, st3)) /\
  decision (Clean.clean_row (written r1) st2)
    = Ok (r1 !! "Audit_Status", r1 !! "Final_Tag").
Proof.
  intros H H1 H2 H3.
  destruct (clean_row_inv r r1 st st1 H) as (o & p & c & Ho & Hp & Hc).
  pose proof H as Hrow.
  rewrite (clean_row_policy r st o p c Ho Hp Hc) in Hrow.
  injection Hrow as Hr1 _.
  assert (Hfirst : decision (Clean.clean_row r st)
                   = Ok (r1 !! "Audit_Status", r1 !! "Final_Tag"))
    by (rewrite H; reflexivity).
  assert (Hsame : original_of r1 = original_of r /\
                  predicted_long_of r1 = predicted_long_of r /\
                  confidence_of r1 = confidence_of r).
  { apply reads_ext; rewrite <- Hr1; apply tagged_other; discriminate. }
  destruct Hsame as (Ho1 & Hp1 & Hc1).
  split; [ | split].
  - rewrite <- Hfirst.
    destruct (reads_ext r1 r2 H1 H2 H3) as (Ho2 & Hp2 & Hc2).
    apply decision_ext; congruence.
  - rewrite Ho in Ho1. rewrite Hp in Hp1. rewrite Hc in Hc1.
    rewrite (clean_row_policy r1 st2 o p c Ho1 Hp1 Hc1).
    eexists. rewrite <- Hr1, tagged_idem. reflexivity.
  - rewrite <- Hfirst. rewrite Ho in Ho1. rewrite Hp in Hp1.
    destruct (written_reads r1 o p Ho1 Hp1) as (Ho3 & Hp3 & Hc3).
    apply decision_ext; congruence.
Qed.

Lemma clean_row_idempotent_witness :
  decision
    (Clean.clean_row
       (csv_row "Another name" "Real Estate"
          "Legal Services and Immigration Consultants" "0.90")
       Clean.stats0)
    = Ok (Clean.tagged scenario_auto_fix "Legal" "AUTO_FIXED"
            !! "Audit_Status",
          Clean.tagged scenario_auto_fix "Legal" "AUTO_FIXED"
            !! "Final_Tag") /\
  (exists st3 : Clean.stats,
      Clean.clean_row (Clean.tagged scenario_auto_fix "Legal" "AUTO_FIXED")
        Clean.stats0
      = Ok (Clean.tagged scenario_auto_fix "Legal" "AUTO_FIXED", st3)) /\
  decision
    (Clean.clean_row
       (written (Clean.tagged scenario_auto_fix "Legal" "AUTO_FIXED"))
       Clean.stats0)
    = Ok (Clean.tagged scenario_auto_fix "Legal" "AUTO_FIXED"
            !! "Audit_Status",
          Clean.tagged scenario_auto_fix "Legal" "AUTO_FIXED"
            !! "Final_Tag").
Proof.
  apply (clean_row_idempotent scenario_auto_fix
           (Clean.tagged scenario_auto_fix "Legal" "AUTO_FIXED")
           (csv_row "Another name" "Real Estate"
              "Legal Services and Immigration Consultants" "0.90")
           Clean.stats0 (Clean.Stats 1 0 0 1) Clean.stats0);
    reflexivity.
Defined.

(** C10. The decision of [clean] for a row is a function of its trimmed
    [Category], its trimmed [Predicted_Tag] and its parsed
    [Confidence_Score]: two rows that agree on the three get the same
    [Audit_Status] and [Final_Tag] (or fail alike), and setting any other
    column of a row to any value leaves its decision as it is. *)
Theorem decision_depends_on_three_fields (r1 r2 : row)
    (st1 st2 : Clean.stats) :
  original_of r1 = original_of r2 ->
  predicted_long_of r1 = predicted_long_of r2 ->
  confidence_of r1 = confidence_of r2 ->
  decision (Clean.clean_row r1 st1) = decision (Clean.clean_row r2 st2) /\
  (forall (column : string) (v : value),
      column <> "Category" -> column <> "Predicted_Tag" ->
      column <> "Confidence_Score" ->
      decision (Clean.clean_row (<[column := v]> r1) st1)
        = decision (Clean.clean_row r1 st1)).
Proof.
  intros Ho Hp Hc. split; [now apply decision_ext | ].
  intros column v H1 H2 H3.
  destruct (reads_ext r1 (<[column := v]> r1)) as (Ho' & Hp' & Hc');
    try (apply lookup_insert_ne; congruence).
  now apply decision_ext.
Qed.

Lemma decision_depends_on_three_fields_witness :
  decision (Clean.clean_row scenario_auto_fix Clean.stats0)
    = decision
        (Clean.clean_row
           (csv_row "Zeta Ltd" "  Real Estate "
              "Legal Services and Immigration Consultants  " " 9e-1")
           (Clean.Stats 3 2 1 6)) /\
  (forall (column : string) (v : value),
      column <> "Category" -> column <> "Predicted_Tag" ->
      column <> "Confidence_Score" ->
      decision (Clean.clean_row (<[column := v]> scenario_auto_fix)
                  Clean.stats0)
        = decision (Clean.clean_row scenario_auto_fix Clean.stats0)).
Proof.
  apply (decision_depends_on_three_fields scenario_auto_fix
           (csv_row "Zeta Ltd" "  Real Estate "
              "Legal Services and Immigration Consultants  " " 9e-1")
           Clean.stats0 (Clean.Stats 3 2 1 6));
    reflexivity.
Defined.

(** ** The [process] command *)

Lemma strip_blank (s : string) : all_space s = true -> strip s = EmptyString.
Proof.
  unfold strip. induction s as [ | a s IH]; simpl; [reflexivity | ].
  intros H. apply andb_prop in H as [Ha Hs]. rewrite Ha. auto.
Qed.

Lemma rstrip_empty (s : string) :
  rstrip s = EmptyString -> all_space s = true.
Proof.
  induction s as [ | a s IH]; simpl; [reflexivity | ].
  destruct (rstrip s); [ | discriminate].
  destruct (is_space a); [auto | discriminate].
Qed.

Lemma strip_empty (s : string) : strip s = EmptyString -> all_space s = true.
Proof.
  unfold strip. induction s as [ | a s IH]; simpl; [reflexivity | ].
  destruct (is_space a) eqn:Ha; [exact IH | ].
  intros H. apply rstrip_empty in H. simpl in H. rewrite Ha in H.
  discriminate.
Qed.

Section ProcessProperties.

Variable World : Type.
Variable classifier :
  string -> list string -> World -> result Process.classification * World.



(** C6. When the text is empty or holds white space only, the
    classification is the sentinel label with confidence exactly 1.0,
    whatever the classifier is, and the state of the world is left as it
    was: the classifier is not called.  A row whose text cell is such a
    text is written with [Predicted_Tag] = None of the above and
    [Confidence_Score] = 1.0. *)
Theorem blank_text_short_circuit (text : string)
    (candidate_tags : list string) (w : World) (column : string) (r : row) :
  all_space text = true ->
  Process.run_classification World classifier (VStr text) candidate_tags w
    = (Ok ("None of the above", 1%float), w) /\
  (r !! column = Some (VStr text) ->
   Process.process_row World classifier column candidate_tags r w
     = (Ok (<["Confidence_Score" := VFloat 1%float]>
              (<["Predicted_Tag" := VStr "None of the above"]> r)), w)).
Proof.
  intros Hblank.
  assert (Hrun :
    Process.run_classification World classifier (VStr text) candidate_tags w
      = (Ok ("None of the above", 1%float), w)).
  { unfold Process.run_classification, py_strip.
    rewrite (strip_blank text Hblank). reflexivity. }
  split; [exact Hrun | ].
  intros Hcol. unfold Process.process_row. rewrite Hcol, Hrun. reflexivity.
Qed.


End ProcessProperties.

Lemma blank_text_short_circuit_witness :
  Process.run_classification (list string) recording_classifier
    (VStr "   ") ["Legal"; "Real Estate"] []
    = (Ok ("None of the above", 1%float), []) /\
  (listing "Acme" "   " !! "Description" = Some (VStr "   ") ->
   Process.process_row (list string) recording_classifier "Description"
     ["Legal"; "Real Estate"] (listing "Acme" "   ") []
     = (Ok (<["Confidence_Score" := VFloat 1%float]>
              (<["Predicted_Tag" := VStr "None of the above"]>
                 (listing "Acme" "   "))), [])).
Proof.
  apply (blank_text_short_circuit (list string) recording_classifier
           "   " ["Legal"; "Real Estate"] [] "Description"
           (listing "Acme" "   ")).
  reflexivity.
Defined.


(** The run of the witness above: the first row fails and is kept with the
    error marker, the blank row short-circuits, the third is classified; the
    classifier was called on the first and the third text only. *)
Example process_csv_run :
  Process.process_csv (list string) recording_classifier
    ["Name"; "Description"]
    [listing "Acme" "boom"; listing "Bolt" "";
     listing "Casa" "We rent flats"]
    "Description" "Legal, Real Estate" []
  = (Ok (["Name"; "Description"; "Predicted_Tag"; "Confidence_Score"],
         [error_row (listing "Acme" "boom");
          classified_row (listing "Bolt" "") "None of the above" 1%float;
          classified_row (listing "Casa" "We rent flats") "Legal" 0.9%float]),
     ["boom"; "We rent flats"]).
Proof. reflexivity. Qed.

(** ** Worked examples *)

(** The scenarios of the specification, run through [clean]. *)
Example clean_auto_fix :
  decision (Clean.clean_row scenario_auto_fix Clean.stats0)
  = Ok (Some (VStr "AUTO_FIXED"), Some (VStr "Legal")).
Proof. reflexivity. Qed.

Example clean_needs_review :
  decision (Clean.clean_row scenario_needs_review Clean.stats0)
  = Ok (Some (VStr "NEEDS_REVIEW"), Some (VStr "Finance & Tax")).
Proof. reflexivity. Qed.

(** A confidence that is not a number compares false both ways: the row is
    [VERIFIED]. *)
Example clean_nan :
  decision
    (Clean.clean_row
       (csv_row "Acme" "Real Estate"
          "Legal Services and Immigration Consultants" "nan") Clean.stats0)
  = Ok (Some (VStr "VERIFIED"), Some (VStr "Real Estate")).
Proof. reflexivity. Qed.

(** A line that stops before the [Category] cell makes [clean] and [audit]
    fail on [None.strip()]. *)
Example clean_short_line :
  Clean.clean_row (<["Category" := VNone]> scenario_auto_fix) Clean.stats0
  = Raise AttributeError.
Proof. reflexivity. Qed.

(** [clean] divides by its [total] as [audit] does. *)
Example clean_zero_rows : Clean.clean ["Name"] [] = Raise ZeroDivisionError.
Proof. reflexivity. Qed.

(** [float()] on some cells. *)
Example float_plain : py_float (VStr " 0.85 ") = Ok 0.85%float.
Proof. reflexivity. Qed.

Example float_exponent : py_float (VStr "-1_0.5e-1") = Ok (-1.05)%float.
Proof. reflexivity. Qed.

Example float_tie_to_even :
  py_float (VStr "9007199254740993") = Ok 9007199254740992%float.
Proof. reflexivity. Qed.

Example float_overflow : py_float (VStr "1e400") = Ok infinity.
Proof. reflexivity. Qed.

Example float_empty : py_float (VStr "") = Raise ValueError.
Proof. reflexivity. Qed.

Example float_word : py_float (VStr "high") = Raise ValueError.
Proof. reflexivity. Qed.

Example float_none : py_float VNone = Raise TypeError.
Proof. reflexivity. Qed.

(** ** Further properties of [clean] *)

Lemma py_strip_raises (v : value) (e : exn) :
  py_strip v = Raise e -> e = AttributeError.
Proof. destruct v; simpl; congruence. Qed.

Lemma unreadable_clean_row (r : row) (st : Clean.stats) :
  readable r = false -> Clean.clean_row r st = Raise AttributeError.
Proof.
  unfold readable, Clean.clean_row.
  destruct (original_of r) as [o | e] eqn:Ho.
  - destruct (predicted_long_of r) as [p | e] eqn:Hp; [discriminate | ].
    intros _. apply py_strip_raises in Hp as ->. reflexivity.
  - intros _. apply py_strip_raises in Ho as ->. reflexivity.
Qed.

Lemma unreadable_audit_row (r : row) (c : Audit.counters) :
  readable r = false -> Audit.audit_row r c = Raise AttributeError.
Proof.
  unfold readable, Audit.audit_row.
  destruct (original_of r) as [o | e] eqn:Ho.
  - destruct (predicted_long_of r) as [p | e] eqn:Hp; [discriminate | ].
    intros _. apply py_strip_raises in Hp as ->. reflexivity.
  - intros _. apply py_strip_raises in Ho as ->. reflexivity.
Qed.

Lemma readable_clean_row (r : row) (st : Clean.stats) :
  readable r = true ->
  exists (s : Clean.status) (t : string),
    Clean.clean_row r st
    = Ok (Clean.tagged r t (Clean.status_name s),
          Clean.counted s (Clean.incr_total st)).
Proof.
  unfold readable.
  destruct (original_of r) as [o | ] eqn:Ho; [ | discriminate].
  destruct (predicted_long_of r) as [p | ] eqn:Hp; [ | discriminate].
  destruct (confidence_of_total r) as [c Hc]. intros _.
  rewrite (clean_row_policy r st o p c Ho Hp Hc). eauto.
Qed.

Lemma has_status_tagged (r : row) (t : string) (s s' : Clean.status) :
  has_status (Clean.status_name s') (Clean.tagged r t (Clean.status_name s))
  = match s, s' with
    | Clean.AUTO_FIXED, Clean.AUTO_FIXED
    | Clean.VERIFIED, Clean.VERIFIED
    | Clean.NEEDS_REVIEW, Clean.NEEDS_REVIEW => true
    | _, _ => false
    end.
Proof.
  unfold has_status. rewrite tagged_status. destruct s, s'; reflexivity.
Qed.

Lemma clean_loop_spec (rows : list row) :
  forall (out : list row) (st : Clean.stats),
    forallb readable rows = true ->
    exists (out' : list row) (st' : Clean.stats),
      Clean.clean_loop rows out st = Ok ((out ++ out')%list, st') /\
      Forall2 cleaned rows out' /\
      Clean.total st' = Clean.total st + Z.of_nat (List.length rows) /\
      Clean.auto_fixed st'
        = Clean.auto_fixed st + count (has_status "AUTO_FIXED") out' /\
      Clean.verified st'
        = Clean.verified st + count (has_status "VERIFIED") out' /\
      Clean.low_conf st'
        = Clean.low_conf st + count (has_status "NEEDS_REVIEW") out'.
Proof.
  induction rows as [ | r rows IH]; intros out st Hrows.
  - exists [], st. rewrite app_nil_r. simpl.
    repeat split; try lia. constructor.
  - simpl in Hrows. apply andb_prop in Hrows as [Hr Hrows].
    destruct (readable_clean_row r st Hr) as (s & t & Hrow).
    destruct (IH (out ++ [Clean.tagged r t (Clean.status_name s)])%list
                (Clean.counted s (Clean.incr_total st)) Hrows)
      as (out' & st' & Hloop & Hall & Ht & Ha & Hv & Hl).
    exists (Clean.tagged r t (Clean.status_name s) :: out'), st'.
    split; [ | split].
    + simpl. rewrite Hrow. unfold bind. simpl fst. simpl snd.
      rewrite Hloop, <- app_assoc. reflexivity.
    + constructor; [ | exact Hall].
      intros st0. destruct (readable_clean_row r st0 Hr) as (s0 & t0 & Hrow0).
      assert (Hd : decision (Clean.clean_row r st0)
                   = decision (Clean.clean_row r st))
        by (apply decision_ext; reflexivity).
      rewrite Hrow0, Hrow in Hd. simpl in Hd.
      rewrite !tagged_status, !tagged_final in Hd.
      injection Hd as Hs0 Ht0. rewrite Hrow0, Hs0, Ht0. eauto.
    + change (count ?f (?x :: out'))
        with ((if f x then 1 else 0) + count f out').
      change "AUTO_FIXED" with (Clean.status_name Clean.AUTO_FIXED).
      change "VERIFIED" with (Clean.status_name Clean.VERIFIED).
      change "NEEDS_REVIEW" with (Clean.status_name Clean.NEEDS_REVIEW).
      rewrite !has_status_tagged.
      change (Clean.status_name Clean.AUTO_FIXED) with "AUTO_FIXED" in *.
      change (Clean.status_name Clean.VERIFIED) with "VERIFIED" in *.
      change (Clean.status_name Clean.NEEDS_REVIEW) with "NEEDS_REVIEW" in *.
      rewrite length_cons, Nat2Z.inj_succ.
      destruct s; simpl in Ht, Ha, Hv, Hl; repeat split; lia.
Qed.

Lemma cleaned_other_columns (r o : row) (k : string) :
  cleaned r o -> k <> "Audit_Status" -> k <> "Final_Tag" -> o !! k = r !! k.
Proof.
  intros Hc H1 H2. destruct (Hc Clean.stats0) as [st' Hrow].
  destruct (clean_row_inv r o _ _ Hrow) as (o' & p & c & Ho & Hp & Hconf).
  rewrite (clean_row_policy r _ o' p c Ho Hp Hconf) in Hrow.
  injection Hrow as <- _. now apply tagged_other.
Qed.

(** X1. When every row can be read, the loop of [clean] gets through: the
    output file has one row for each input row, in the order of the input;
    each is what [clean] decides for its input row alone, whatever rows came
    before it; and it has every other cell of its input row unchanged. *)
Theorem clean_writes_each_row (rows : list row) :
  forallb readable rows = true ->
  exists (out : list row) (st : Clean.stats),
    Clean.clean_loop rows [] Clean.stats0 = Ok (out, st) /\
    List.length out = List.length rows /\
    Forall2
      (fun r o : row =>
         cleaned r o /\
         forall k : string,
           k <> "Audit_Status" -> k <> "Final_Tag" -> o !! k = r !! k)
      rows out.
Proof.
  intros Hrows.
  destruct (clean_loop_spec rows [] Clean.stats0 Hrows)
    as (out & st & Hloop & Hall & _).
  exists out, st. split; [exact Hloop | ].
  split; [symmetry; exact (Forall2_length _ _ _ Hall) | ].
  clear Hloop Hrows.
  induction Hall as [ | r o rows' out' Hc Hall IH]; constructor.
  - split; [exact Hc | ]. intros k. now apply cleaned_other_columns.
  - exact IH.
Qed.

Lemma clean_writes_each_row_witness :
  exists (out : list row) (st : Clean.stats),
    Clean.clean_loop
      [scenario_auto_fix; scenario_no_match; scenario_missing_score]
      [] Clean.stats0 = Ok (out, st) /\
    List.length out = 3%nat /\
    Forall2
      (fun r o : row =>
         cleaned r o /\
         forall k : string,
           k <> "Audit_Status" -> k <> "Final_Tag" -> o !! k = r !! k)
      [scenario_auto_fix; scenario_no_match; scenario_missing_score] out.
Proof.
  apply (clean_writes_each_row
           [scenario_auto_fix; scenario_no_match; scenario_missing_score]).
  reflexivity.
Defined.

(** X2. The counters [clean] reports count the rows of its output file:
    [total] is the number of rows, [auto_fixed], [verified] and [low_conf]
    are the numbers of output rows whose [Audit_Status] is [AUTO_FIXED],
    [VERIFIED] and [NEEDS_REVIEW], and the three add up to [total]. *)
Theorem clean_stats_count_statuses (rows : list row) :
  forallb readable rows = true ->
  exists (out : list row) (st : Clean.stats),
    Clean.clean_loop rows [] Clean.stats0 = Ok (out, st) /\
    Clean.total st = Z.of_nat (List.length rows) /\
    Clean.auto_fixed st = count (has_status "AUTO_FIXED") out /\
    Clean.verified st = count (has_status "VERIFIED") out /\
    Clean.low_conf st = count (has_status "NEEDS_REVIEW") out /\
    Clean.auto_fixed st + Clean.verified st + Clean.low_conf st
      = Clean.total st.
Proof.
  intros Hrows.
  destruct (clean_loop_spec rows [] Clean.stats0 Hrows)
    as (out & st & Hloop & Hall & Ht & Ha & Hv & Hl).
  exists out, st. simpl in Ht, Ha, Hv, Hl.
  repeat split; try assumption.
  rewrite Ht, Ha, Hv, Hl. clear Hloop Ht Ha Hv Hl st Hrows.
  induction Hall as [ | r o rows' out' Hc Hall IH]; [reflexivity | ].
  change (count ?f (o :: out')) with ((if f o then 1 else 0) + count f out').
  rewrite length_cons, Nat2Z.inj_succ.
  destruct (Hc Clean.stats0) as [st' Hrow].
  destruct (clean_row_inv r o _ _ Hrow) as (o' & p & c & Ho & Hp & Hconf).
  rewrite (clean_row_policy r _ o' p c Ho Hp Hconf) in Hrow.
  injection Hrow as <- _.
  change "AUTO_FIXED" with (Clean.status_name Clean.AUTO_FIXED).
  change "VERIFIED" with (Clean.status_name Clean.VERIFIED).
  change "NEEDS_REVIEW" with (Clean.status_name Clean.NEEDS_REVIEW).
  rewrite !has_status_tagged.
  change (Clean.status_name Clean.AUTO_FIXED) with "AUTO_FIXED" in *.
  change (Clean.status_name Clean.VERIFIED) with "VERIFIED" in *.
  change (Clean.status_name Clean.NEEDS_REVIEW) with "NEEDS_REVIEW" in *.
  destruct (fst (Clean.spec_policy TAG_MAP SHORT_TAG_MAP o' p c)); lia.
Qed.

Lemma clean_stats_count_statuses_witness :
  exists (out : list row) (st : Clean.stats),
    Clean.clean_loop
      [scenario_auto_fix; scenario_no_match; scenario_missing_score]
      [] Clean.stats0 = Ok (out, st) /\
    Clean.total st = 3 /\
    Clean.auto_fixed st = count (has_status "AUTO_FIXED") out /\
    Clean.verified st = count (has_status "VERIFIED") out /\
    Clean.low_conf st = count (has_status "NEEDS_REVIEW") out /\
    Clean.auto_fixed st + Clean.verified st + Clean.low_conf st
      = Clean.total st.
Proof.
  apply (clean_stats_count_statuses
           [scenario_auto_fix; scenario_no_match; scenario_missing_score]).
  reflexivity.
Defined.

Lemma clean_loop_unreadable (rows : list row) :
  forall (out : list row) (st : Clean.stats),
    forallb readable rows = false ->
    Clean.clean_loop rows out st = Raise AttributeError.
Proof.
  induction rows as [ | r rows IH]; intros out st Hrows; [discriminate | ].
  simpl in Hrows. simpl. destruct (readable r) eqn:Hr.
  - destruct (readable_clean_row r st Hr) as (s & t & ->).
    unfold bind. apply IH. exact Hrows.
  - rewrite (unreadable_clean_row r st Hr). reflexivity.
Qed.

Lemma audit_loop_unreadable (rows : list row) :
  forall c : Audit.counters,
    forallb readable rows = false ->
    Audit.audit_loop rows c = Raise AttributeError.
Proof.
  induction rows as [ | r rows IH]; intros c Hrows; [discriminate | ].
  simpl in Hrows. simpl. destruct (readable r) eqn:Hr.
  - destruct (audit_row_counts r c Hr) as (c' & -> & _).
    unfold bind. apply IH. exact Hrows.
  - rewrite (unreadable_audit_row r c Hr). reflexivity.
Qed.

(** X3. One row whose [Category] or [Predicted_Tag] cell is not a string (a
    line that stops before the cell) aborts [clean] and [audit]: both raise
    [AttributeError], whatever the other rows are, and neither gets to its
    summary. *)
Theorem unreadable_row_aborts (fieldnames : list string) (rows : list row) :
  forallb readable rows = false ->
  Clean.clean fieldnames rows = Raise AttributeError /\
  Audit.audit rows = Raise AttributeError.
Proof.
  intros Hrows. unfold Clean.clean, Audit.audit.
  rewrite (clean_loop_unreadable rows _ _ Hrows).
  rewrite (audit_loop_unreadable rows _ Hrows). split; reflexivity.
Qed.

Lemma unreadable_row_aborts_witness :
  Clean.clean ["Name"; "Category"; "Predicted_Tag"; "Confidence_Score"]
    [scenario_auto_fix; scenario_short_line; scenario_needs_review]
  = Raise AttributeError /\
  Audit.audit [scenario_auto_fix; scenario_short_line; scenario_needs_review]
  = Raise AttributeError.
Proof.
  apply (unreadable_row_aborts
           ["Name"; "Category"; "Predicted_Tag"; "Confidence_Score"]
           [scenario_auto_fix; scenario_short_line; scenario_needs_review]).
  reflexivity.
Defined.

Lemma truediv_ok (a b : Z) :
  b <> 0 -> exists q : float, truediv a b = Ok q.
Proof.
  intros Hb. unfold truediv. apply Z.eqb_neq in Hb. rewrite Hb. eauto.
Qed.

(** X4. On a file with at least one row, all of them readable, [clean]
    returns: the header of the output file is the header of the input
    followed by [Audit_Status] and [Final_Tag], the rows are those of the
    loop, and the summary table lists the total, the verified, the
    low-confidence and the auto-fixed counts, in this order.  On a file with
    no row it raises [ZeroDivisionError]. *)
Theorem clean_command_outcome (fieldnames : list string) (rows : list row) :
  (0 < List.length rows)%nat ->
  forallb readable rows = true ->
  Clean.clean fieldnames [] = Raise ZeroDivisionError /\
  exists (out : list row) (st : Clean.stats)
         (table : list (string * Z * float)),
    Clean.clean_loop rows [] Clean.stats0 = Ok (out, st) /\
    Clean.clean fieldnames rows
    = Ok ((fieldnames ++ ["Audit_Status"; "Final_Tag"])%list, out, table) /\
    counts_of table
    = [ ("Total Rows", Z.of_nat (List.length rows));
        ("Verified (Kept Original)", Clean.verified st);
        ("Low Confidence (Needs Review)", Clean.low_conf st);
        ("Auto-Fixed (High Risk Errors)", Clean.auto_fixed st) ].
Proof.
  intros Hlen Hrows. split; [reflexivity | ].
  destruct (clean_loop_spec rows [] Clean.stats0 Hrows)
    as (out & st & Hloop & _ & Ht & _).
  simpl in Ht, Hloop.
  assert (Hpos : Clean.total st <> 0) by lia.
  destruct (truediv_ok (Clean.verified st) _ Hpos) as [v Hv].
  destruct (truediv_ok (Clean.low_conf st) _ Hpos) as [l Hl].
  destruct (truediv_ok (Clean.auto_fixed st) _ Hpos) as [a Ha].
  exists out, st. eexists. split; [exact Hloop | ].
  unfold Clean.clean, Clean.summary. rewrite Hloop. unfold bind. simpl snd.
  rewrite Hv, Hl, Ha. simpl fst. split; [reflexivity | ].
  unfold counts_of. simpl. rewrite Ht. reflexivity.
Qed.

Lemma clean_command_outcome_witness :
  Clean.clean ["Name"; "Category"; "Predicted_Tag"; "Confidence_Score"] []
  = Raise ZeroDivisionError /\
  exists (out : list row) (st : Clean.stats)
         (table : list (string * Z * float)),
    Clean.clean_loop [scenario_auto_fix; scenario_needs_review] []
      Clean.stats0 = Ok (out, st) /\
    Clean.clean ["Name"; "Category"; "Predicted_Tag"; "Confidence_Score"]
      [scenario_auto_fix; scenario_needs_review]
    = Ok ((["Name"; "Category"; "Predicted_Tag"; "Confidence_Score"]
             ++ ["Audit_Status"; "Final_Tag"])%list, out, table) /\
    counts_of table
    = [ ("Total Rows",
         Z.of_nat
           (List.length [scenario_auto_fix; scenario_needs_review]));
        ("Verified (Kept Original)", Clean.verified st);
        ("Low Confidence (Needs Review)", Clean.low_conf st);
        ("Auto-Fixed (High Risk Errors)", Clean.auto_fixed st) ].
Proof.
  apply (clean_command_outcome
           ["Name"; "Category"; "Predicted_Tag"; "Confidence_Score"]
           [scenario_auto_fix; scenario_needs_review]);
    [simpl; lia | reflexivity].
Defined.

(** ** Further properties of [audit] *)

Lemma audit_row_exact (r : row) (c : Audit.counters) :
  readable r = true ->
  Audit.audit_row r c
  = Ok (Audit.Counters
          (Audit.total c + 1)
          (Audit.agreements c + (if agrees r then 1 else 0))
          (Audit.high_conf_agreements c + (if agrees_high r then 1 else 0))
          (Audit.high_conf_disagreements c + (if in_danger r then 1 else 0))
          (Audit.low_conf c + (if low_confidence r then 1 else 0))
          (Audit.danger_rows c
             ++ (if in_danger r then [danger_entry r] else []))%list).
Proof.
  unfold readable, in_danger, agrees_high, disagrees, agrees, high_confidence,
    low_confidence, danger_entry, Audit.audit_row.
  destruct (original_of r) as [o | ]; [ | discriminate].
  destruct (predicted_long_of r) as [p | ]; [ | discriminate].
  destruct (confidence_of_total r) as [cf ->]. intros _. unfold bind, ok_or.
  destruct (String.eqb o (dict_get TAG_MAP p p)), (0.8 <? cf)%float,
    (cf <? 0.5)%float; simpl; rewrite ?Z.add_0_r, ?app_nil_r; reflexivity.
Qed.

Lemma audit_loop_exact (rows : list row) :
  forall c : Audit.counters,
    forallb readable rows = true ->
    Audit.audit_loop rows c
    = Ok (Audit.Counters
            (Audit.total c + Z.of_nat (List.length rows))
            (Audit.agreements c + count agrees rows)
            (Audit.high_conf_agreements c + count agrees_high rows)
            (Audit.high_conf_disagreements c + count in_danger rows)
            (Audit.low_conf c + count low_confidence rows)
            (Audit.danger_rows c
               ++ map danger_entry (List.filter in_danger rows))%list).
Proof.
  induction rows as [ | r rows IH]; intros c Hrows.
  - simpl. rewrite !Z.add_0_r, app_nil_r. destruct c; reflexivity.
  - simpl in Hrows. apply andb_prop in Hrows as [Hr Hrows].
    simpl Audit.audit_loop. rewrite (audit_row_exact r c Hr). unfold bind.
    rewrite (IH _ Hrows). simpl Audit.total. simpl Audit.agreements.
    simpl Audit.high_conf_agreements. simpl Audit.high_conf_disagreements.
    simpl Audit.low_conf. simpl Audit.danger_rows.
    change (count ?f (r :: rows))
      with ((if f r then 1 else 0) + count f rows).
    rewrite length_cons, Nat2Z.inj_succ. simpl List.filter.
    destruct (in_danger r); simpl map; rewrite <- ?app_assoc; simpl app;
      do 2 f_equal; lia.
Qed.

Lemma count_filter (f : row -> bool) (rows : list row) :
  Z.of_nat (List.length (List.filter f rows)) = count f rows.
Proof.
  induction rows as [ | r rows IH]; [reflexivity | ].
  simpl. destruct (f r); simpl List.length; lia.
Qed.

(** X5. The two high-confidence counters of [audit] and its list of danger
    rows are exact: [high_conf_agreements] counts the rows that agree with
    confidence above 0.8, [high_conf_disagreements] those that disagree with
    confidence above 0.8, and [danger_rows] holds the entries of the latter
    rows, each once, in the order of the file; so the list is as long as the
    danger-zone count. *)
Theorem audit_danger_rows_exact (rows : list row) :
  forallb readable rows = true ->
  exists c : Audit.counters,
    Audit.audit_loop rows Audit.counters0 = Ok c /\
    Audit.high_conf_agreements c = count agrees_high rows /\
    Audit.high_conf_disagreements c = count in_danger rows /\
    Audit.danger_rows c = map danger_entry (List.filter in_danger rows) /\
    Z.of_nat (List.length (Audit.danger_rows c))
    = Audit.high_conf_disagreements c.
Proof.
  intros Hrows. eexists. split; [apply (audit_loop_exact rows _ Hrows) | ].
  simpl. repeat split.
  rewrite length_map. apply count_filter.
Qed.

Lemma audit_danger_rows_exact_witness :
  exists c : Audit.counters,
    Audit.audit_loop
      [scenario_needs_review; scenario_auto_fix; scenario_low_mismatch;
       scenario_no_match] Audit.counters0 = Ok c /\
    Audit.high_conf_agreements c
    = count agrees_high
        [scenario_needs_review; scenario_auto_fix; scenario_low_mismatch;
         scenario_no_match] /\
    Audit.high_conf_disagreements c
    = count in_danger
        [scenario_needs_review; scenario_auto_fix; scenario_low_mismatch;
         scenario_no_match] /\
    Audit.danger_rows c
    = map danger_entry
        (List.filter in_danger
           [scenario_needs_review; scenario_auto_fix; scenario_low_mismatch;
            scenario_no_match]) /\
    Z.of_nat (List.length (Audit.danger_rows c))
    = Audit.high_conf_disagreements c.
Proof.
  apply (audit_danger_rows_exact
           [scenario_needs_review; scenario_auto_fix; scenario_low_mismatch;
            scenario_no_match]).
  reflexivity.
Defined.

Lemma count_app (f : row -> bool) (rows1 rows2 : list row) :
  count f (rows1 ++ rows2) = count f rows1 + count f rows2.
Proof.
  induction rows1 as [ | r rows1 IH]; [reflexivity | ].
  simpl. rewrite IH. lia.
Qed.

(** X6. The counters of [audit] add up over files: auditing the rows of two
    readable files one after the other gives, for each of the five counters,
    the sum of the counters of the two files, and the danger rows of the
    first followed by those of the second. *)
Theorem audit_counters_add_up (rows1 rows2 : list row) :
  forallb readable rows1 = true ->
  forallb readable rows2 = true ->
  exists c1 c2 c : Audit.counters,
    Audit.audit_loop rows1 Audit.counters0 = Ok c1 /\
    Audit.audit_loop rows2 Audit.counters0 = Ok c2 /\
    Audit.audit_loop (rows1 ++ rows2) Audit.counters0 = Ok c /\
    Audit.total c = Audit.total c1 + Audit.total c2 /\
    Audit.agreements c = Audit.agreements c1 + Audit.agreements c2 /\
    Audit.high_conf_agreements c
    = Audit.high_conf_agreements c1 + Audit.high_conf_agreements c2 /\
    Audit.high_conf_disagreements c
    = Audit.high_conf_disagreements c1 + Audit.high_conf_disagreements c2 /\
    Audit.low_conf c = Audit.low_conf c1 + Audit.low_conf c2 /\
    Audit.danger_rows c = (Audit.danger_rows c1 ++ Audit.danger_rows c2)%list.
Proof.
  intros H1 H2.
  assert (H12 : forallb readable (rows1 ++ rows2) = true)
    by (rewrite forallb_app, H1, H2; reflexivity).
  eexists _, _, _.
  split; [apply (audit_loop_exact rows1 _ H1) | ].
  split; [apply (audit_loop_exact rows2 _ H2) | ].
  split; [apply (audit_loop_exact (rows1 ++ rows2) _ H12) | ].
  simpl. rewrite !count_app, length_app, Nat2Z.inj_add.
  rewrite List.filter_app, map_app. repeat split; lia.
Qed.

Lemma audit_counters_add_up_witness :
  exists c1 c2 c : Audit.counters,
    Audit.audit_loop [scenario_auto_fix; scenario_needs_review]
      Audit.counters0 = Ok c1 /\
    Audit.audit_loop [scenario_no_match] Audit.counters0 = Ok c2 /\
    Audit.audit_loop
      ([scenario_auto_fix; scenario_needs_review] ++ [scenario_no_match])
      Audit.counters0 = Ok c /\
    Audit.total c = Audit.total c1 + Audit.total c2 /\
    Audit.agreements c = Audit.agreements c1 + Audit.agreements c2 /\
    Audit.high_conf_agreements c
    = Audit.high_conf_agreements c1 + Audit.high_conf_agreements c2 /\
    Audit.high_conf_disagreements c
    = Audit.high_conf_disagreements c1 + Audit.high_conf_disagreements c2 /\
    Audit.low_conf c = Audit.low_conf c1 + Audit.low_conf c2 /\
    Audit.danger_rows c = (Audit.danger_rows c1 ++ Audit.danger_rows c2)%list.
Proof.
  apply (audit_counters_add_up [scenario_auto_fix; scenario_needs_review]
           [scenario_no_match]);
    reflexivity.
Defined.



Lemma example_lines_nameless (ds : list Audit.danger_row) :
  forallb named ds = false -> Audit.example_lines ds = Raise TypeError.
Proof.
  induction ds as [ | d ds IH]; intros Hds; [discriminate | ].
  simpl in Hds. simpl. unfold Audit.example_line, named in *.
  destruct (Audit.Name d) as [ | n | f]; try reflexivity.
  unfold bind. rewrite (IH Hds). reflexivity.
Qed.



(** X8. When one of the first ten danger rows has no string for a name (the
    file has no [Name] column, or the line stops before it), [audit] raises
    [TypeError] on [r['Name'][:30]]: the command fails after it has
    gone through every row. *)
Theorem audit_nameless_danger_row_raises (rows : list row) :
  forallb readable rows = true ->
  forallb named (firstn 10 (map danger_entry (List.filter in_danger rows)))
  = false ->
  Audit.audit rows = Raise TypeError.
Proof.
  intros Hrows Hnameless.
  pose proof (audit_loop_exact rows Audit.counters0 Hrows) as Hloop.
  assert (Hpos : 0 + Z.of_nat (List.length rows) <> 0).
  { destruct rows; [discriminate | simpl List.length; lia]. }
  unfold Audit.audit. rewrite Hloop. unfold bind.
  simpl Audit.total. simpl Audit.agreements.
  simpl Audit.high_conf_agreements. simpl Audit.high_conf_disagreements.
  simpl Audit.low_conf. simpl Audit.danger_rows.
  destruct (truediv_ok (0 + count agrees rows) _ Hpos) as [a ->].
  destruct (truediv_ok (0 + count agrees_high rows) _ Hpos) as [h ->].
  destruct (truediv_ok (0 + count low_confidence rows) _ Hpos) as [l ->].
  destruct (truediv_ok (0 + count in_danger rows) _ Hpos) as [d ->].
  rewrite (example_lines_nameless _ Hnameless). reflexivity.
Qed.

Lemma audit_nameless_danger_row_raises_witness :
  Audit.audit [scenario_needs_review; scenario_nameless] = Raise TypeError.
Proof.
  apply (audit_nameless_danger_row_raises
           [scenario_needs_review; scenario_nameless]);
    reflexivity.
Defined.

(** ** [audit] and [clean] on the same file *)

Lemma SFltb_above (m1 m2 : positive) (e : Z) (x : spec_float) :
  (m1 < m2)%positive ->
  SFltb (S754_finite false m2 e) x = true ->
  SFltb (S754_finite false m1 e) x = true.
Proof.
  intros Hm. unfold SFltb.
  destruct x as [s | s | | s m' e']; simpl; try discriminate;
    try (destruct s; intros; congruence).
  destruct s; [discriminate | ].
  destruct (e ?= e'); try congruence.
  change (Pos.compare_cont Eq m2 m') with (m2 ?= m')%positive.
  change (Pos.compare_cont Eq m1 m') with (m1 ?= m')%positive.
  destruct (m2 ?= m')%positive eqn:H2; try discriminate. intros _.
  apply Pos.compare_lt_iff in H2.
  pose proof (Pos.lt_trans _ _ _ Hm H2) as H1.
  apply Pos.compare_lt_iff in H1. rewrite H1. reflexivity.
Qed.

Lemma SFltb_below (m1 m2 : positive) (e : Z) (x : spec_float) :
  (m1 < m2)%positive ->
  SFltb x (S754_finite false m1 e) = true ->
  SFltb (S754_finite false m2 e) x = false.
Proof.
  intros Hm. unfold SFltb.
  destruct x as [s | s | | s m' e']; simpl; try reflexivity;
    try (destruct s; intros; congruence).
  destruct s; [reflexivity | ].
  rewrite (Z.compare_antisym e' e).
  destruct (e' ?= e); simpl; try congruence.
  change (Pos.compare_cont Eq m' m1) with (m' ?= m1)%positive.
  change (Pos.compare_cont Eq m2 m') with (m2 ?= m')%positive.
  destruct (m' ?= m1)%positive eqn:H1; try discriminate. intros _.
  apply Pos.compare_lt_iff in H1.
  pose proof (Pos.lt_trans _ _ _ H1 Hm) as H2.
  apply Pos.compare_gt_iff in H2. rewrite H2. reflexivity.
Qed.

(** A confidence above the threshold of [clean], 0.85, is above that of
    [audit], 0.8. *)
Lemma above_085_above_08 (c : float) :
  (0.85 <? c)%float = true -> (0.8 <? c)%float = true.
Proof.
  rewrite !ltb_spec.
  change (Prim2SF 0.85) with (S754_finite false 7656119366529843 (-53)).
  change (Prim2SF 0.8) with (S754_finite false 7205759403792794 (-53)).
  apply SFltb_above. reflexivity.
Qed.

(** A confidence below 0.5 is not above 0.85. *)
Lemma below_05_not_above_085 (c : float) :
  (c <? 0.5)%float = true -> (0.85 <? c)%float = false.
Proof.
  rewrite !ltb_spec.
  change (Prim2SF 0.85) with (S754_finite false 7656119366529843 (-53)).
  change (Prim2SF 0.5) with (S754_finite false 4503599627370496 (-53)).
  apply SFltb_below. reflexivity.
Qed.

Lemma cleaned_auto_fixed (r o : row) :
  cleaned r o -> has_status "AUTO_FIXED" o = true -> in_danger r = true.
Proof.
  intros Hc. destruct (Hc Clean.stats0) as [st' Hrow].
  destruct (clean_row_inv r o _ _ Hrow) as (o' & p & c & Ho & Hp & Hconf).
  rewrite (clean_row_policy r _ o' p c Ho Hp Hconf) in Hrow.
  injection Hrow as <- _.
  unfold has_status. rewrite tagged_status.
  unfold in_danger, disagrees, agrees, high_confidence.
  rewrite Ho, Hp, Hconf. unfold Clean.spec_policy, dict_get.
  destruct (0.85 <? c)%float eqn:Hc85; simpl andb.
  - rewrite (above_085_above_08 c Hc85).
    destruct (negb _); simpl; [reflexivity | ].
    destruct (c <? 0.5)%float; simpl; discriminate.
  - destruct (c <? 0.5)%float; simpl; discriminate.
Qed.

Lemma cleaned_needs_review (r o : row) :
  cleaned r o -> has_status "NEEDS_REVIEW" o = low_confidence r.
Proof.
  intros Hc. destruct (Hc Clean.stats0) as [st' Hrow].
  destruct (clean_row_inv r o _ _ Hrow) as (o' & p & c & Ho & Hp & Hconf).
  rewrite (clean_row_policy r _ o' p c Ho Hp Hconf) in Hrow.
  injection Hrow as <- _.
  unfold has_status. rewrite tagged_status.
  unfold low_confidence. rewrite Hconf. unfold Clean.spec_policy.
  destruct (c <? 0.5)%float eqn:Hc05.
  - rewrite (below_05_not_above_085 c Hc05). reflexivity.
  - destruct ((0.85 <? c)%float && negb _); simpl; [ | reflexivity].
    destruct (SHORT_TAG_MAP !! p) as [v | ]; simpl; [ | reflexivity].
    destruct (String.eqb v "None"); reflexivity.
Qed.

Lemma count_le_Forall2 (f g : row -> bool) (rows out : list row) :
  Forall2 (fun r o => g o = true -> f r = true) rows out ->
  count g out <= count f rows.
Proof.
  induction 1 as [ | r o rows out H _ IH]; [reflexivity | ].
  simpl. destruct (g o); [rewrite H by reflexivity | destruct (f r)]; lia.
Qed.

Lemma count_eq_Forall2 (f g : row -> bool) (rows out : list row) :
  Forall2 (fun r o => g o = f r) rows out -> count g out = count f rows.
Proof.
  induction 1 as [ | r o rows out H _ IH]; [reflexivity | ].
  simpl. rewrite H, IH. reflexivity.
Qed.

(** X9. Every row [clean] overrides is a danger row of [audit]: a row
    written as [AUTO_FIXED] disagrees with confidence above 0.8 (the
    threshold of [clean], 0.85, lies above that of [audit]); so on the same
    file the auto-fixed count of [clean] is at most the danger-zone count of
    [audit]. *)
Theorem auto_fixed_rows_are_danger_rows (rows : list row) :
  forallb readable rows = true ->
  exists (out : list row) (st : Clean.stats) (c : Audit.counters),
    Clean.clean_loop rows [] Clean.stats0 = Ok (out, st) /\
    Audit.audit_loop rows Audit.counters0 = Ok c /\
    Forall2
      (fun r o : row => has_status "AUTO_FIXED" o = true -> in_danger r = true)
      rows out /\
    Clean.auto_fixed st <= Audit.high_conf_disagreements c.
Proof.
  intros Hrows.
  destruct (clean_loop_spec rows [] Clean.stats0 Hrows)
    as (out & st & Hloop & Hall & _ & Ha & _).
  exists out, st. eexists.
  split; [exact Hloop | ].
  split; [apply (audit_loop_exact rows _ Hrows) | ].
  assert (Hpoint :
    Forall2
      (fun r o : row => has_status "AUTO_FIXED" o = true -> in_danger r = true)
      rows out).
  { clear Hloop Ha Hrows.
    induction Hall as [ | r o rows' out' Hc Hall IH]; constructor.
    - now apply cleaned_auto_fixed.
    - exact IH. }
  split; [exact Hpoint | ].
  simpl in *. rewrite Ha.
  apply (count_le_Forall2 in_danger (has_status "AUTO_FIXED")) in Hpoint.
  lia.
Qed.

Lemma auto_fixed_rows_are_danger_rows_witness :
  exists (out : list row) (st : Clean.stats) (c : Audit.counters),
    Clean.clean_loop [scenario_auto_fix; scenario_no_match] []
      Clean.stats0 = Ok (out, st) /\
    Audit.audit_loop [scenario_auto_fix; scenario_no_match]
      Audit.counters0 = Ok c /\
    Forall2
      (fun r o : row => has_status "AUTO_FIXED" o = true -> in_danger r = true)
      [scenario_auto_fix; scenario_no_match] out /\
    Clean.auto_fixed st <= Audit.high_conf_disagreements c.
Proof.
  apply (auto_fixed_rows_are_danger_rows
           [scenario_auto_fix; scenario_no_match]).
  reflexivity.
Defined.

(** X10. [clean] writes a row as [NEEDS_REVIEW] exactly when its confidence
    is below 0.5, whether it agrees or not (a confidence below 0.5 is never
    above 0.85, so the first branch of the policy never takes such a row);
    so on the same file the low-confidence count of [clean] is that of
    [audit]. *)
Theorem needs_review_iff_low_confidence (rows : list row) :
  forallb readable rows = true ->
  exists (out : list row) (st : Clean.stats) (c : Audit.counters),
    Clean.clean_loop rows [] Clean.stats0 = Ok (out, st) /\
    Audit.audit_loop rows Audit.counters0 = Ok c /\
    Forall2
      (fun r o : row => has_status "NEEDS_REVIEW" o = low_confidence r)
      rows out /\
    Clean.low_conf st = Audit.low_conf c.
Proof.
  intros Hrows.
  destruct (clean_loop_spec rows [] Clean.stats0 Hrows)
    as (out & st & Hloop & Hall & _ & _ & _ & Hl).
  exists out, st. eexists.
  split; [exact Hloop | ].
  split; [apply (audit_loop_exact rows _ Hrows) | ].
  assert (Hpoint :
    Forall2
      (fun r o : row => has_status "NEEDS_REVIEW" o = low_confidence r)
      rows out).
  { clear Hloop Hl Hrows.
    induction Hall as [ | r o rows' out' Hc Hall IH]; constructor.
    - now apply cleaned_needs_review.
    - exact IH. }
  split; [exact Hpoint | ].
  simpl in *. rewrite Hl.
  apply (count_eq_Forall2 low_confidence (has_status "NEEDS_REVIEW"))
    in Hpoint.
  lia.
Qed.

Lemma needs_review_iff_low_confidence_witness :
  exists (out : list row) (st : Clean.stats) (c : Audit.counters),
    Clean.clean_loop
      [scenario_auto_fix; scenario_needs_review; scenario_low_mismatch] []
      Clean.stats0 = Ok (out, st) /\
    Audit.audit_loop
      [scenario_auto_fix; scenario_needs_review; scenario_low_mismatch]
      Audit.counters0 = Ok c /\
    Forall2
      (fun r o : row => has_status "NEEDS_REVIEW" o = low_confidence r)
      [scenario_auto_fix; scenario_needs_review; scenario_low_mismatch] out /\
    Clean.low_conf st = Audit.low_conf c.
Proof.
  apply (needs_review_iff_low_confidence
           [scenario_auto_fix; scenario_needs_review; scenario_low_mismatch]).
  reflexivity.
Defined.

(** ** Further properties of [process] *)

Section ProcessCalls.

Variable World : Type.
Variable classifier :
  string -> list string -> World -> result Process.classification * World.






End ProcessCalls.



(** The calls of the run above: the trimmed first and third texts, each with
    the two candidate tags and the sentinel. *)
Example process_calls_run :
  calls_of "Description" (map strip (split_on "," "Legal, Real Estate"))
    [listing "Acme" " boom "; listing "Bolt" "  ";
     listing "Casa" "We rent flats"]
  = [ ("boom", ["Legal"; "Real Estate"; "None of the above"]);
      ("We rent flats", ["Legal"; "Real Estate"; "None of the above"]) ].
Proof. reflexivity. Qed.

(** ** From [process] to [audit] and [clean] *)

Lemma TAG_MAP_sentinel : TAG_MAP !! "None of the above" = Some "None".
Proof. vm_compute. reflexivity. Qed.



Lemma blank_row_reads (r : row) (score : value) :
  original_of
    (<["Confidence_Score" := score]>
       (<["Predicted_Tag" := VStr "None of the above"]> r)) = original_of r /\
  predicted_long_of
    (<["Confidence_Score" := score]>
       (<["Predicted_Tag" := VStr "None of the above"]> r))
  = Ok "None of the above".
Proof.
  unfold original_of, predicted_long_of, row_get.
  rewrite !lookup_insert_ne by discriminate.
  rewrite lookup_insert_eq. repeat split.
Qed.

Lemma blank_row_outcome (b : row) (o : string) (st : Clean.stats) :
  original_of b = Ok o ->
  predicted_long_of b = Ok "None of the above" ->
  confidence_of b = Ok 1%float ->
  decision (Clean.clean_row b st)
  = Ok (Some (VStr "VERIFIED"), Some (VStr o)) /\
  high_confidence b = true /\
  agrees b = String.eqb o "None" /\
  in_danger b = negb (String.eqb o "None").
Proof.
  intros Ho Hp Hc.
  unfold in_danger, disagrees, agrees, high_confidence.
  rewrite clean_row_decision, Ho, Hp, Hc. unfold bind, dict_get.
  unfold Clean.spec_policy.
  rewrite TAG_MAP_sentinel.
  change (SHORT_TAG_MAP !! "None of the above")
    with (SHORT_TAG_MAP !! NONE_TAG).
  rewrite SHORT_TAG_MAP_sentinel.
  change (0.85 <? 1)%float with true. change (0.8 <? 1)%float with true.
  change (1 <? 0.5)%float with false.
  destruct (String.eqb o "None"); repeat split.
Qed.

Section Pipeline.

Variable World : Type.
Variable classifier :
  string -> list string -> World -> result Process.classification * World.


(** X14. A row with a blank text comes out of the pipeline with its
    category kept: [process] writes it with the sentinel and the confidence
    1.0 without a call; [clean] then writes it as [VERIFIED] with its own
    category, also when it reads the confidence back as the text [1.0];
    [audit] counts it as high confidence, as an agreement when its category
    is [None] and else as a danger row. *)
Theorem blank_row_verified (column : string) (candidate_tags : list string)
    (r : row) (text : string) (w : World) (st : Clean.stats)
    (original_category : string) :
  all_space text = true ->
  r !! column = Some (VStr text) ->
  original_of r = Ok original_category ->
  exists b : row,
    Process.process_row World classifier column candidate_tags r w
    = (Ok b, w) /\
    decision (Clean.clean_row b st)
    = Ok (Some (VStr "VERIFIED"), Some (VStr original_category)) /\
    decision (Clean.clean_row (<["Confidence_Score" := VStr "1.0"]> b) st)
    = Ok (Some (VStr "VERIFIED"), Some (VStr original_category)) /\
    high_confidence b = true /\
    agrees b = String.eqb original_category "None" /\
    in_danger b = negb (String.eqb original_category "None").
Proof.
  intros Hblank Htext Ho.
  exists (<["Confidence_Score" := VFloat 1%float]>
            (<["Predicted_Tag" := VStr "None of the above"]> r)).
  split.
  { unfold Process.process_row, Process.run_classification, py_strip.
    rewrite Htext, (strip_blank text Hblank). reflexivity. }
  destruct (blank_row_reads r (VFloat 1%float)) as (Ho1 & Hp1).
  rewrite Ho in Ho1.
  assert (Hc1 :
    confidence_of
      (<["Confidence_Score" := VFloat 1%float]>
         (<["Predicted_Tag" := VStr "None of the above"]> r))
    = Ok 1%float).
  { unfold confidence_of, row_get. rewrite lookup_insert_eq. reflexivity. }
  destruct (blank_row_outcome _ _ st Ho1 Hp1 Hc1) as (H1 & H2 & H3 & H4).
  split; [exact H1 | ]. split; [ | repeat split; assumption].
  rewrite insert_insert_eq.
  destruct (blank_row_reads r (VStr "1.0")) as (Ho2 & Hp2).
  rewrite Ho in Ho2.
  assert (Hc2 :
    confidence_of
      (<["Confidence_Score" := VStr "1.0"]>
         (<["Predicted_Tag" := VStr "None of the above"]> r))
    = Ok 1%float).
  { unfold confidence_of, row_get. rewrite lookup_insert_eq. reflexivity. }
  apply (blank_row_outcome _ _ st Ho2 Hp2 Hc2).
Qed.

End Pipeline.


Lemma blank_row_verified_witness :
  exists b : row,
    Process.process_row (list string) recording_classifier "Description"
      ["Legal"; "Real Estate"]
      (tagged_listing "Acme" "Real Estate" "  ") []
    = (Ok b, []) /\
    decision (Clean.clean_row b Clean.stats0)
    = Ok (Some (VStr "VERIFIED"), Some (VStr "Real Estate")) /\
    decision
      (Clean.clean_row (<["Confidence_Score" := VStr "1.0"]> b) Clean.stats0)
    = Ok (Some (VStr "VERIFIED"), Some (VStr "Real Estate")) /\
    high_confidence b = true /\
    agrees b = String.eqb "Real Estate" "None" /\
    in_danger b = negb (String.eqb "Real Estate" "None").
Proof.
  apply (blank_row_verified (list string) recording_classifier
           "Description" ["Legal"; "Real Estate"]
           (tagged_listing "Acme" "Real Estate" "  ") "  " []
           Clean.stats0 "Real Estate");
    reflexivity.
Defined.

(** ** White space around a cell *)

Lemma lstrip_app_blank (ws s : string) :
  all_space ws = true -> lstrip (ws ++ s) = lstrip s.
Proof.
  induction ws as [ | a ws IH]; simpl; [reflexivity | ].
  intros H. apply andb_prop in H as [Ha Hws]. rewrite Ha. auto.
Qed.

Lemma rstrip_blank (ws : string) :
  all_space ws = true -> rstrip ws = EmptyString.
Proof.
  induction ws as [ | a ws IH]; simpl; [reflexivity | ].
  intros H. apply andb_prop in H as [Ha Hws].
  rewrite (IH Hws), Ha. reflexivity.
Qed.

Lemma rstrip_app_blank (s ws : string) :
  all_space ws = true -> rstrip (s ++ ws) = rstrip s.
Proof.
  intros Hws. induction s as [ | a s IH]; simpl.
  - now apply rstrip_blank.
  - rewrite IH. reflexivity.
Qed.

Lemma strip_padded (ws1 cell ws2 : string) :
  all_space ws1 = true -> all_space ws2 = true ->
  strip (ws1 ++ cell ++ ws2) = strip cell.
Proof.
  intros H1 H2. unfold strip. rewrite (lstrip_app_blank _ _ H1).
  induction cell as [ | a cell IH]; simpl.
  - apply (strip_blank ws2 H2).
  - destruct (is_space a); [exact IH | ].
    apply (rstrip_app_blank (String a cell) ws2 H2).
Qed.

(** X15. White space around the [Category] or the [Predicted_Tag] cell of a
    row changes nothing: with the cell padded on either side, [clean]
    decides as for the row itself and [audit] updates its counters and its
    danger rows as for the row itself. *)
Theorem surrounding_space_is_ignored (r : row) (column cell ws1 ws2 : string)
    (st : Clean.stats) (c : Audit.counters) :
  column = "Category" \/ column = "Predicted_Tag" ->
  r !! column = Some (VStr cell) ->
  all_space ws1 = true ->
  all_space ws2 = true ->
  decision
    (Clean.clean_row (<[column := VStr (ws1 ++ cell ++ ws2)]> r) st)
  = decision (Clean.clean_row r st) /\
  Audit.audit_row (<[column := VStr (ws1 ++ cell ++ ws2)]> r) c
  = Audit.audit_row r c.
Proof.
  intros Hcol Hcell H1 H2.
  assert (Hreads :
    original_of (<[column := VStr (ws1 ++ cell ++ ws2)]> r) = original_of r /\
    predicted_long_of (<[column := VStr (ws1 ++ cell ++ ws2)]> r)
    = predicted_long_of r /\
    confidence_of (<[column := VStr (ws1 ++ cell ++ ws2)]> r)
    = confidence_of r /\
    row_get (<[column := VStr (ws1 ++ cell ++ ws2)]> r) "Name" VNone
    = row_get r "Name" VNone).
  { unfold original_of, predicted_long_of, confidence_of, row_get.
    destruct Hcol as [-> | ->].
    - rewrite lookup_insert_eq, Hcell.
      rewrite !lookup_insert_ne by discriminate.
      simpl. rewrite (strip_padded _ _ _ H1 H2). repeat split.
    - rewrite lookup_insert_eq, Hcell.
      rewrite !lookup_insert_ne by discriminate.
      simpl. rewrite (strip_padded _ _ _ H1 H2). repeat split. }
  destruct Hreads as (Ho & Hp & Hc & Hn).
  split; [apply decision_ext; assumption | ].
  unfold Audit.audit_row. rewrite Ho, Hp, Hc, Hn. reflexivity.
Qed.

Lemma surrounding_space_is_ignored_witness :
  decision
    (Clean.clean_row
       (<["Category" := VStr ("  " ++ "Real Estate" ++ " ")]>
          scenario_auto_fix) Clean.stats0)
  = decision (Clean.clean_row scenario_auto_fix Clean.stats0) /\
  Audit.audit_row
    (<["Category" := VStr ("  " ++ "Real Estate" ++ " ")]> scenario_auto_fix)
    Audit.counters0
  = Audit.audit_row scenario_auto_fix Audit.counters0.
Proof.
  apply (surrounding_space_is_ignored scenario_auto_fix "Category"
           "Real Estate" "  " " " Clean.stats0 Audit.counters0);
    [left; reflexivity | reflexivity | reflexivity | reflexivity].
Defined.

(** ** Edges of the decision *)

Lemma SFcompare_refl_not_nan (x : spec_float) :
  SFeqb x x = false -> x = S754_nan.
Proof.
  unfold SFeqb. destruct x as [s | s | | s m e]; simpl; try reflexivity.
  - discriminate.
  - destruct s; discriminate.
  - rewrite Z.compare_refl.
    change (Pos.compare_cont Eq m m) with (m ?= m)%positive.
    rewrite Pos.compare_refl. destruct s; discriminate.
Qed.

Lemma nan_compares_false (c k : float) :
  (c =? c)%float = false ->
  (k <? c)%float = false /\ (c <? k)%float = false.
Proof.
  rewrite FloatAxioms.eqb_spec, !ltb_spec. intros H.
  apply SFcompare_refl_not_nan in H. rewrite H. unfold SFltb.
  split; [destruct (Prim2SF k) | ]; reflexivity.
Qed.

(** X16. A confidence that is not a number (the cell [nan] parses to one)
    compares false with every threshold: [clean] writes the row as
    [VERIFIED] with its own category, agreeing or not, and [audit] counts it
    neither as high nor as low confidence. *)
Theorem nan_confidence_is_verified (r : row) (st : Clean.stats)
    (original_category predicted_label : string) (confidence : float) :
  original_of r = Ok original_category ->
  predicted_long_of r = Ok predicted_label ->
  confidence_of r = Ok confidence ->
  (confidence =? confidence)%float = false ->
  decision (Clean.clean_row r st)
  = Ok (Some (VStr "VERIFIED"), Some (VStr original_category)) /\
  high_confidence r = false /\
  low_confidence r = false /\
  in_danger r = false.
Proof.
  intros Ho Hp Hc Hnan.
  destruct (nan_compares_false confidence 0.85 Hnan) as [H85 _].
  destruct (nan_compares_false confidence 0.8 Hnan) as [H8 _].
  destruct (nan_compares_false confidence 0.5 Hnan) as [_ H5].
  unfold in_danger, high_confidence, low_confidence.
  rewrite clean_row_decision, Ho, Hp, Hc. unfold bind, Clean.spec_policy.
  rewrite H85, H8, H5, andb_false_r. repeat split.
Qed.

Lemma nan_confidence_is_verified_witness :
  decision (Clean.clean_row scenario_nan Clean.stats0)
  = Ok (Some (VStr "VERIFIED"), Some (VStr "Real Estate")) /\
  high_confidence scenario_nan = false /\
  low_confidence scenario_nan = false /\
  in_danger scenario_nan = false.
Proof.
  apply (nan_confidence_is_verified scenario_nan Clean.stats0 "Real Estate"
           "Legal Services and Immigration Consultants" nan);
    reflexivity.
Defined.

(** X17. An [AUTO_FIXED] row need not change: when the category of a row is
    already the final form its predicted label has in [SHORT_TAG_MAP], but
    differs from the form [TAG_MAP] compares it with, and the confidence is
    above 0.85, [clean] writes the row as [AUTO_FIXED] with the final tag it
    had as its category. *)
Theorem auto_fixed_may_keep_category (r : row) (st : Clean.stats)
    (original_category predicted_label : string) (confidence : float) :
  original_of r = Ok original_category ->
  predicted_long_of r = Ok predicted_label ->
  confidence_of r = Ok confidence ->
  (0.85 <? confidence)%float = true ->
  SHORT_TAG_MAP !! predicted_label = Some original_category ->
  dict_get TAG_MAP predicted_label predicted_label <> original_category ->
  decision (Clean.clean_row r st)
  = Ok (Some (VStr "AUTO_FIXED"), Some (VStr original_category)).
Proof.
  intros Ho Hp Hc Hhigh Hfinal Hdiff.
  rewrite clean_row_decision, Ho, Hp, Hc. unfold bind, Clean.spec_policy.
  rewrite Hhigh, Hfinal. fold (dict_get TAG_MAP predicted_label predicted_label).
  destruct (String.eqb_spec original_category
              (dict_get TAG_MAP predicted_label predicted_label))
    as [Heq | _]; [congruence | ].
  simpl andb. cbv iota.
  destruct (String.eqb_spec original_category "None") as [-> | _];
    [ | reflexivity].
  exfalso. apply Hdiff. apply SHORT_TAG_MAP_values in Hfinal.
  repeat (apply elem_of_cons in Hfinal as [Hfinal | Hfinal];
          [injection Hfinal as Hlabel; try discriminate | ]).
  - rewrite Hlabel. unfold dict_get. rewrite TAG_MAP_sentinel. reflexivity.
  - apply elem_of_nil in Hfinal. destruct Hfinal.
Qed.

Lemma auto_fixed_may_keep_category_witness :
  decision (Clean.clean_row scenario_final_form Clean.stats0)
  = Ok (Some (VStr "AUTO_FIXED"), Some (VStr "Legal")).
Proof.
  apply (auto_fixed_may_keep_category scenario_final_form Clean.stats0
           "Legal" "Legal Services and Immigration Consultants" 0.9%float);
    try reflexivity.
  vm_compute. discriminate.
Defined.

(** ** Lines that stop before a text cell *)

(** C1 (the code departs from the claim). A row whose [Category] or
    [Predicted_Tag] cell is [None], which is what the reader yields for a
    line that stops before the cell, gets none of the three statuses:
    [clean] raises [AttributeError] on [None.strip()] in the body of its
    loop, so the command fails on any file that holds such a row, whatever
    the rows before and after it.  A [None] in the [Confidence_Score] cell
    is absorbed instead ([TypeError] is caught): the row with only its
    confidence missing is written, as [NEEDS_REVIEW]. *)
Theorem short_line_gets_no_status (r : row) (st : Clean.stats)
    (fieldnames : list string) (before after : list row) :
  r !! "Category" = Some VNone \/ r !! "Predicted_Tag" = Some VNone ->
  Clean.clean_row r st = Raise AttributeError /\
  decision (Clean.clean_row r st) = Raise AttributeError /\
  Clean.clean fieldnames (before ++ r :: after)%list = Raise AttributeError /\
  decision (Clean.clean_row scenario_missing_score st)
  = Ok (Some (VStr "NEEDS_REVIEW"), Some (VStr "Real Estate")).
Proof.
  intros Hnone.
  assert (Hr : readable r = false).
  { unfold readable, original_of, predicted_long_of, row_get.
    destruct Hnone as [-> | ->]; simpl; [reflexivity | ].
    destruct (py_strip _); reflexivity. }
  pose proof (unreadable_clean_row r st Hr) as Hrow.
  split; [exact Hrow | ]. split; [rewrite Hrow; reflexivity | ].
  split.
  - unfold Clean.clean. rewrite clean_loop_unreadable; [reflexivity | ].
    rewrite forallb_app. simpl. rewrite Hr. apply andb_false_r.
  - rewrite clean_row_decision. reflexivity.
Qed.

Lemma short_line_gets_no_status_witness :
  Clean.clean_row scenario_short_line Clean.stats0 = Raise AttributeError /\
  decision (Clean.clean_row scenario_short_line Clean.stats0)
  = Raise AttributeError /\
  Clean.clean ["Name"; "Category"; "Predicted_Tag"; "Confidence_Score"]
    ([scenario_auto_fix] ++ scenario_short_line :: [scenario_needs_review])%list
  = Raise AttributeError /\
  decision (Clean.clean_row scenario_missing_score Clean.stats0)
  = Ok (Some (VStr "NEEDS_REVIEW"), Some (VStr "Real Estate")).
Proof.
  apply (short_line_gets_no_status scenario_short_line Clean.stats0
           ["Name"; "Category"; "Predicted_Tag"; "Confidence_Score"]
           [scenario_auto_fix] [scenario_needs_review]).
  left. reflexivity.
Defined.
